(** * Document Query Assistant: the document index lifecycle of [src/app.py]

    A shallow embedding of [DocumentQueryApp] (Streamlit application):
    content fingerprints, the document registry kept in the session state,
    the index docstore, batch upload with duplicate detection, document
    removal by index rebuild, the capped query history and the JSON
    persistence of the registry. *)

From Stdlib Require Import ZArith List Strings.Ascii Strings.String Strings.Byte.
From stdpp Require Import base tactics option list gmap strings pretty.

Local Open Scope string_scope.
Local Open Scope list_scope.

(** ** [hashlib.md5]: RFC 1321 over 32-bit words

    Words are [Z] in the range [0, 2^32); every addition wraps around. *)
Module MD5.

Local Open Scope Z_scope.

Definition add32 (x y : Z) : Z := (x + y) mod 2 ^ 32.

Definition not32 (x : Z) : Z := Z.lxor x 0xffffffff.

Definition rotl32 (x c : Z) : Z :=
  Z.lor (Z.shiftl x c mod 2 ^ 32) (Z.shiftr x (32 - c)).

Definition shifts : list Z :=
  [ 7; 12; 17; 22; 7; 12; 17; 22; 7; 12; 17; 22; 7; 12; 17; 22;
    5; 9; 14; 20; 5; 9; 14; 20; 5; 9; 14; 20; 5; 9; 14; 20;
    4; 11; 16; 23; 4; 11; 16; 23; 4; 11; 16; 23; 4; 11; 16; 23;
    6; 10; 15; 21; 6; 10; 15; 21; 6; 10; 15; 21; 6; 10; 15; 21 ].

Definition sines : list Z :=
  [ 0xd76aa478; 0xe8c7b756; 0x242070db; 0xc1bdceee;
    0xf57c0faf; 0x4787c62a; 0xa8304613; 0xfd469501;
    0x698098d8; 0x8b44f7af; 0xffff5bb1; 0x895cd7be;
    0x6b901122; 0xfd987193; 0xa679438e; 0x49b40821;
    0xf61e2562; 0xc040b340; 0x265e5a51; 0xe9b6c7aa;
    0xd62f105d; 0x02441453; 0xd8a1e681; 0xe7d3fbc8;
    0x21e1cde6; 0xc33707d6; 0xf4d50d87; 0x455a14ed;
    0xa9e3e905; 0xfcefa3f8; 0x676f02d9; 0x8d2a4c8a;
    0xfffa3942; 0x8771f681; 0x6d9d6122; 0xfde5380c;
    0xa4beea44; 0x4bdecfa9; 0xf6bb4b60; 0xbebfbc70;
    0x289b7ec6; 0xeaa127fa; 0xd4ef3085; 0x04881d05;
    0xd9d4d039; 0xe6db99e5; 0x1fa27cf8; 0xc4ac5665;
    0xf4292244; 0x432aff97; 0xab9423a7; 0xfc93a039;
    0x655b59c3; 0x8f0ccc92; 0xffeff47d; 0x85845dd1;
    0x6fa87e4f; 0xfe2ce6e0; 0xa3014314; 0x4e0811a1;
    0xf7537e82; 0xbd3af235; 0x2ad7d2bb; 0xeb86d391 ].

(** [n] as [k] little-endian bytes. *)
Fixpoint le_bytes (k : nat) (n : Z) : list Z :=
  match k with
  | O => []
  | S k' => n mod 256 :: le_bytes k' (n / 256)
  end.

Fixpoint le_word (bs : list Z) : Z :=
  match bs with
  | [] => 0
  | b :: bs' => b + 256 * le_word bs'
  end.

(** Message, then 0x80, then zeros up to 56 modulo 64, then the bit length
    on 64 bits. *)
Definition pad (msg : list Z) : list Z :=
  let len := Z.of_nat (length msg) in
  msg ++ 0x80 :: replicate (Z.to_nat ((55 - len) mod 64)) 0
      ++ le_bytes 8 ((8 * len) mod 2 ^ 64).

Fixpoint chunks (fuel : nat) (k : nat) (bs : list Z) : list (list Z) :=
  match fuel, bs with
  | O, _ | _, [] => []
  | S fuel', _ => take k bs :: chunks fuel' k (drop k bs)
  end.

Definition words (block : list Z) : list Z :=
  le_word <$> chunks 16 4 block.

Record regs := Regs { rA : Z; rB : Z; rC : Z; rD : Z }.

Definition round (m : list Z) (r : regs) (i : nat) : regs :=
  let '(Regs a b c d) := r in
  let iz := Z.of_nat i in
  let '(f, g) :=
    if iz <? 16 then (Z.lor (Z.land b c) (Z.land (not32 b) d), iz)
    else if iz <? 32 then
      (Z.lor (Z.land d b) (Z.land (not32 d) c), (5 * iz + 1) mod 16)
    else if iz <? 48 then (Z.lxor b (Z.lxor c d), (3 * iz + 5) mod 16)
    else (Z.lxor c (Z.lor b (not32 d)), (7 * iz) mod 16) in
  let f' := add32 (add32 (add32 f a) (nth i sines 0)) (nth (Z.to_nat g) m 0) in
  Regs d (add32 b (rotl32 f' (nth i shifts 0))) b c.

Definition block_step (h : regs) (block : list Z) : regs :=
  let r := fold_left (round (words block)) (seq 0 64) h in
  Regs (add32 (rA h) (rA r)) (add32 (rB h) (rB r))
       (add32 (rC h) (rC r)) (add32 (rD h) (rD r)).

Definition init : regs := Regs 0x67452301 0xefcdab89 0x98badcfe 0x10325476.

Definition digest (msg : list Z) : list Z :=
  let p := pad msg in
  let h := fold_left block_step (chunks (length p) 64 p) init in
  le_bytes 4 (rA h) ++ le_bytes 4 (rB h) ++ le_bytes 4 (rC h)
    ++ le_bytes 4 (rD h).

Definition hex_digit (n : Z) : ascii :=
  ascii_of_N (Z.to_N (if n <? 10 then 48 + n else 87 + n)).

Definition hex_byte (b : Z) : string :=
  String (hex_digit (b / 16)) (String (hex_digit (b mod 16)) EmptyString).

Definition hexdigest (content : list byte) : string :=
  String.concat EmptyString
    (hex_byte <$> digest ((fun b => Z.of_N (Byte.to_N b)) <$> content)).

End MD5.

(** ** Python [str] and UTF-8

    A Python [str] is modelled by the string of its UTF-8 bytes;
    [bytes.decode("utf-8")] is strict and accepts exactly the well-formed
    byte sequences (no overlong forms, no surrogates, at most U+10FFFF). *)
Module UTF8.

Local Open Scope Z_scope.

Definition between (lo hi b : Z) : bool := (lo <=? b) && (b <=? hi).

Definition cont (b : Z) : bool := between 0x80 0xBF b.

(** The code points of a byte sequence, [None] where Python raises
    [UnicodeDecodeError]. *)
Fixpoint code_points (bs : list Z) : option (list Z) :=
  match bs with
  | [] => Some []
  | b0 :: t0 =>
    if b0 <? 0x80 then cons b0 <$> code_points t0
    else if between 0xC2 0xDF b0 then
      match t0 with
      | b1 :: t1 =>
        if cont b1
        then cons ((b0 - 0xC0) * 64 + (b1 - 0x80)) <$> code_points t1
        else None
      | _ => None
      end
    else if between 0xE0 0xEF b0 then
      match t0 with
      | b1 :: b2 :: t2 =>
        if between (if b0 =? 0xE0 then 0xA0 else 0x80)
                   (if b0 =? 0xED then 0x9F else 0xBF) b1 && cont b2
        then cons ((b0 - 0xE0) * 4096 + (b1 - 0x80) * 64 + (b2 - 0x80))
               <$> code_points t2
        else None
      | _ => None
      end
    else if between 0xF0 0xF4 b0 then
      match t0 with
      | b1 :: b2 :: b3 :: t3 =>
        if between (if b0 =? 0xF0 then 0x90 else 0x80)
                   (if b0 =? 0xF4 then 0x8F else 0xBF) b1
           && cont b2 && cont b3
        then cons ((b0 - 0xF0) * 262144 + (b1 - 0x80) * 4096
                   + (b2 - 0x80) * 64 + (b3 - 0x80))
               <$> code_points t3
        else None
      | _ => None
      end
    else None
  end.

Definition byte_values (content : list byte) : list Z :=
  (fun b => Z.of_N (Byte.to_N b)) <$> content.

(** [content.decode("utf-8")] *)
Definition decode (content : list byte) : option string :=
  match code_points (byte_values content) with
  | Some _ => Some (string_of_list_byte content)
  | None => None
  end.

(** [s[:n]]: the first [n] code points of [s]. *)
Fixpoint prefix (n : nat) (s : string) : string :=
  match s with
  | EmptyString => EmptyString
  | String c s' =>
    if cont (Z.of_N (N_of_ascii c)) then String c (prefix n s')
    else match n with
         | O => EmptyString
         | S n' => String c (prefix n' s')
         end
  end.

End UTF8.

(** ** [json.dump(obj, f, indent=4)] for the registry *)
Module JSON.

Definition quote : string := String "034"%char EmptyString.
Definition newline : string := String "010"%char EmptyString.

Definition hex4 (n : Z) : string :=
  (MD5.hex_byte (n / 256) +:+ MD5.hex_byte (n mod 256))%Z.

(** One code point under [ensure_ascii=True]. *)
Definition escape_code_point (cp : Z) : string :=
  (if cp =? 34 then "\" +:+ quote
   else if cp =? 92 then "\\"
   else if cp =? 10 then "\n"
   else if cp =? 13 then "\r"
   else if cp =? 9 then "\t"
   else if cp =? 8 then "\b"
   else if cp =? 12 then "\f"
   else if UTF8.between 32 126 cp
     then String (ascii_of_N (Z.to_N cp)) EmptyString
   else if cp <? 0x10000 then "\u" +:+ hex4 cp
   else
     let n := cp - 0x10000 in
     "\u" +:+ hex4 (Z.lor 0xd800 (Z.land (Z.shiftr n 10) 0x3ff))
       +:+ "\u" +:+ hex4 (Z.lor 0xdc00 (Z.land n 0x3ff)))%Z.

(** A [str] as a JSON string.  A byte string that is not well-formed UTF-8
    stands for no Python [str]; its bytes are then escaped one by one. *)
Definition encode_str (s : string) : string :=
  let bs := UTF8.byte_values (list_byte_of_string s) in
  quote
    +:+ String.concat EmptyString
          (escape_code_point <$> default bs (UTF8.code_points bs))
    +:+ quote.

End JSON.

(** ** Data *)

(** A registry record: the dict with keys [type], [size], [date_added] and
    [hash] that the upload stores under the file name. *)
Record DocInfo := {
  info_type : string;
  info_size : nat;
  info_date_added : string;
  info_hash : string
}.

#[global] Instance DocInfo_eq_dec : EqDecision DocInfo.
Proof. solve_decision. Defined.

(** Modelled from the spec: the index store ([VectorStoreIndex] of
    llama_index, not part of this repository).  An indexed document is its
    text with its metadata dict; the docstore is the list of documents in
    insertion order; [insert] adds one document at the end, and
    [from_documents] builds an index holding exactly the given documents. *)
Record Document := {
  text : string;
  metadata : gmap string string
}.

#[global] Instance Document_eq_dec : EqDecision Document.
Proof. solve_decision. Defined.

Definition index_insert (index : list Document) (doc : Document)
  : list Document := index ++ [doc].

Definition from_documents (documents : list Document) : list Document :=
  documents.

(** A file handed over by [st.file_uploader]. *)
Record UploadedFile := {
  file_name : string;
  file_type : string;
  getvalue : list byte
}.

Record QueryEntry := {
  question : string;
  response : string;
  timestamp : string
}.

(** The answer of the query engine. *)
Record Response := {
  response_text : string;
  source_nodes : list string
}.

(** The part of [st.session_state] the lifecycle uses. *)
Record SessionState := {
  documents_registry : gmap string DocInfo;
  query_history : list QueryEntry
}.

(** The session state together with the index in memory. *)
Record App := {
  session : SessionState;
  index : list Document
}.

Inductive Exception :=
| UnicodeDecodeError
| JSONDecodeError (msg : string)
| LibraryError (msg : string).

(** What an operation shows and what it writes or calls outside. *)
Inductive Effect :=
| st_subheader (s : string)
| st_warning (s : string)
| st_error (s : string) (e : Exception)
| st_success (s : string)
| st_write (s : string)
| st_markdown (s : string)
| st_rerun
| json_dump_file (path content : string)
| index_persist (persist_dir : string) (docs : list Document)
| engine_query (prompt : string).

Definition PERSIST_DIR : string := "./storage".
Definition DOCUMENTS_META_FILE : string := "./storage/documents_meta.json".
Definition QUERY_HISTORY_FILE : string := "./storage/query_history.json".

(** ** JSON text of the registry and of the history *)
Module JSON_files.
Import JSON.

Definition member (indent key value : string) : string :=
  indent +:+ encode_str key +:+ ": " +:+ value.

Definition lines (items : list string) : string :=
  String.concat ("," +:+ newline) items.

Definition dumps_info (info : DocInfo) : string :=
  "{" +:+ newline
  +:+ lines [ member "        " "type" (encode_str (info_type info));
              member "        " "size" (pretty (info_size info));
              member "        " "date_added"
                (encode_str (info_date_added info));
              member "        " "hash" (encode_str (info_hash info)) ]
  +:+ newline +:+ "    }".

(** The dict is written in the order of its items; the map of the model
    lists them in key order. *)
Definition dumps_registry (reg : gmap string DocInfo) : string :=
  match map_to_list reg with
  | [] => "{}"
  | items =>
    "{" +:+ newline
    +:+ lines ((fun kv => member "    " (fst kv) (dumps_info (snd kv)))
                 <$> items)
    +:+ newline +:+ "}"
  end.

Definition dumps_entry (e : QueryEntry) : string :=
  "    {" +:+ newline
  +:+ lines [ member "        " "question" (encode_str (question e));
              member "        " "response" (encode_str (response e));
              member "        " "timestamp" (encode_str (timestamp e)) ]
  +:+ newline +:+ "    }".

Definition dumps_history (h : list QueryEntry) : string :=
  match h with
  | [] => "[]"
  | _ => "[" +:+ newline +:+ lines (dumps_entry <$> h) +:+ newline +:+ "]"
  end.

End JSON_files.

(** ** Operations of [DocumentQueryApp] *)

(** What [os.path.exists], [open] and [json.load] answer for a file. *)
Inductive FileRead (A : Type) :=
| no_file
| load_raises (e : Exception)
| loaded (v : A).
Arguments no_file {A}.
Arguments load_raises {A} e.
Arguments loaded {A} v.

Section DocumentQueryApp.

(** [PyPDF2.PdfReader(pdf_file).pages] with [extract_text()] of each page,
    or the exception raised on the way. *)
Variable pdf_pages : list byte -> Exception + list (option string).

(** [index.as_query_engine().query(prompt)] *)
Variable query_engine : list Document -> string -> Response.

Definition fresh_session : SessionState :=
  {| documents_registry := ∅; query_history := [] |}.

(** A key is set only when the session does not hold it yet. *)
Definition _initialize_session_state (session_state : option SessionState)
  : SessionState := default fresh_session session_state.

Definition set_registry (st : SessionState) (reg : gmap string DocInfo)
  : SessionState :=
  {| documents_registry := reg; query_history := query_history st |}.

Definition set_history (st : SessionState) (h : list QueryEntry)
  : SessionState :=
  {| documents_registry := documents_registry st; query_history := h |}.

Definition _load_query_history (file : FileRead (list QueryEntry))
    (st : SessionState) : SessionState * list Effect :=
  match file with
  | no_file => (st, [])
  | loaded loaded_history => (set_history st loaded_history, [])
  | load_raises e =>
    (set_history st [], [st_error "Error loading query history: " e])
  end.

Definition _save_query_history (st : SessionState) : list Effect :=
  [json_dump_file QUERY_HISTORY_FILE
     (JSON_files.dumps_history (query_history st))].

Definition _load_document_registry (file : FileRead (gmap string DocInfo))
    (st : SessionState) : SessionState * list Effect :=
  match file with
  | no_file => (st, [])
  | loaded v => (set_registry st v, [])
  | load_raises e =>
    (set_registry st ∅, [st_error "Error loading document registry: " e])
  end.

Definition _save_document_registry (st : SessionState) : list Effect :=
  [json_dump_file DOCUMENTS_META_FILE
     (JSON_files.dumps_registry (documents_registry st))].

(** [__init__]: session defaults, then both loads. *)
Definition DocumentQueryApp_init (session_state : option SessionState)
    (meta_file : FileRead (gmap string DocInfo))
    (history_file : FileRead (list QueryEntry))
  : SessionState * list Effect :=
  let st := _initialize_session_state session_state in
  let '(st, e1) := _load_document_registry meta_file st in
  let '(st, e2) := _load_query_history history_file st in
  (st, e1 ++ e2).

Definition _generate_file_hash (file_content : list byte) : string :=
  MD5.hexdigest file_content.

Definition _extract_pdf_text (pdf_file : list byte)
  : option string * list Effect :=
  match pdf_pages pdf_file with
  | inr pages =>
    (Some (fold_left (fun text page => text +:+ default EmptyString page)
             pages EmptyString), [])
  | inl e => (None, [st_error "Error extracting PDF text: " e])
  end.

(** *** [render_question_section] *)

(** [history[-50:]] *)
Definition last_50 (history : list QueryEntry) : list QueryEntry :=
  drop (length history - 50) history.

(** Lines 197 to 201: append, then keep the last 50 entries. *)
Definition append_query (history : list QueryEntry) (query_entry : QueryEntry)
  : list QueryEntry :=
  let history := history ++ [query_entry] in
  if (50 <? length history)%nat then last_50 history else history.

Definition show_sources (nodes : list string) : list Effect :=
  match nodes with
  | [] => []
  | _ =>
    st_markdown "**Sources:**"
    :: ((fun node => st_write ("- " +:+ UTF8.prefix 200 node +:+ "..."))
          <$> nodes)
  end.

(** [prompt] is what [st.chat_input] returns and [now] the clock reading. *)
Definition render_question_section (now : string) (prompt : option string)
    (app : App) : App * list Effect :=
  let st := session app in
  if decide (documents_registry st = ∅) then
    (app, [st_warning "Please upload a document to start asking questions."])
  else
    match prompt with
    | Some prompt =>
      if decide (prompt = EmptyString) then
        (app, [st_subheader "Ask a Question"])
      else
        let response := query_engine (index app) prompt in
        let query_entry :=
          {| question := prompt;
             response := response_text response;
             timestamp := now |} in
        let st' := set_history st (append_query (query_history st) query_entry) in
        ({| session := st'; index := index app |},
         [st_subheader "Ask a Question"; engine_query prompt]
         ++ _save_query_history st'
         ++ [st_markdown "**Your Question:**"; st_write prompt;
             st_markdown "**Answer:**"; st_markdown (response_text response)]
         ++ show_sources (source_nodes response))
    | None => (app, [st_subheader "Ask a Question"])
    end.

(** *** [render_history_section]: the two buttons *)

(** The delete button of the entry shown at rank [idx], counted from 1 and
    from the newest entry: [del history[len(history) - idx]], a position
    that exists. *)
Definition delete_history_entry (idx : nat) (st : SessionState)
  : SessionState * list Effect :=
  let history := query_history st in
  let st' := set_history st (delete (length history - idx) history) in
  (st', _save_query_history st' ++ [st_rerun]).

Definition clear_history (st : SessionState) : SessionState * list Effect :=
  let st' := set_history st [] in
  (st', _save_query_history st'
        ++ [st_success "Query history has been cleared."; st_rerun]).

(** *** [remove_document] and [remove_all_documents]

    The index calls are total in the model, so the [except] branches, which
    report the error and return the old index, are never taken. *)
Definition remove_document (app : App) (filename : string)
  : App * list Effect :=
  let st := session app in
  let '(st', saved) :=
    if decide (is_Some (documents_registry st !! filename)) then
      let st' := set_registry st (delete filename (documents_registry st)) in
      (st', _save_document_registry st')
    else (st, []) in
  let new_docs :=
    (fun doc => {| text := text doc; metadata := metadata doc |})
      <$> filter (fun doc => metadata doc !! "filename" <> Some filename)
            (index app) in
  let new_index := from_documents new_docs in
  ({| session := st'; index := new_index |},
   saved ++ [index_persist PERSIST_DIR new_index;
             st_success ("Document '" +:+ filename
                         +:+ "' removed successfully.")]).

Definition remove_all_documents (app : App) : App * list Effect :=
  let st' := set_registry (session app) ∅ in
  let new_index := from_documents [] in
  ({| session := st'; index := new_index |},
   _save_document_registry st'
   ++ [index_persist PERSIST_DIR new_index;
       st_success "All documents have been removed."]).

(** *** [render_document_management]: the upload *)

(** [any(doc_info.get('hash') == file_hash for doc_info in registry.values())] *)
Definition is_duplicate (reg : gmap string DocInfo) (file_hash : string)
  : bool :=
  bool_decide (map_Exists (fun _ doc_info => info_hash doc_info = file_hash) reg).

(** Lines 278 to 292: every file is checked against the registry, which
    this loop does not change. *)
Fixpoint scan_uploads (reg : gmap string DocInfo)
    (uploaded_files : list UploadedFile)
    (duplicate_files : list string)
    (new_files_to_process : list (UploadedFile * list byte * string))
  : list string * list (UploadedFile * list byte * string) :=
  match uploaded_files with
  | [] => (duplicate_files, new_files_to_process)
  | uploaded_file :: rest =>
    let file_content := getvalue uploaded_file in
    let file_hash := _generate_file_hash file_content in
    if is_duplicate reg file_hash then
      scan_uploads reg rest
        (duplicate_files ++ [file_name uploaded_file]) new_files_to_process
    else
      scan_uploads reg rest duplicate_files
        (new_files_to_process ++ [(uploaded_file, file_content, file_hash)])
  end.

(** Lines 295 to 298. *)
Definition warn_duplicates (duplicate_files : list string) : list Effect :=
  match duplicate_files with
  | [] => []
  | _ =>
    st_warning "Duplicate files detected:"
    :: ((fun dup_file => st_write ("- " +:+ dup_file)) <$> duplicate_files)
  end.

(** Lines 312 to 322: [if text:] holds for a non-empty string. *)
Definition index_and_register (now : string) (app : App)
    (uploaded_file : UploadedFile) (file_content : list byte)
    (file_hash : string) (text : option string) : App :=
  match text with
  | Some text =>
    if decide (text = EmptyString) then app
    else
      let doc :=
        {| text := text;
           metadata := {[ "filename" := file_name uploaded_file ]} |} in
      {| session :=
           set_registry (session app)
             (<[ file_name uploaded_file :=
                   {| info_type := file_type uploaded_file;
                      info_size := length file_content;
                      info_date_added := now;
                      info_hash := file_hash |} ]>
                (documents_registry (session app)));
         index := index_insert (index app) doc |}
  | None => app
  end.

(** Lines 302 to 325, one turn of the loop. *)
Definition process_new_file (now : string) (acc : App * list Effect)
    (item : UploadedFile * list byte * string) : App * list Effect :=
  let '(app, effects) := acc in
  let '(uploaded_file, file_content, file_hash) := item in
  if decide (file_type uploaded_file = "application/pdf") then
    let '(text, shown) := _extract_pdf_text file_content in
    (index_and_register now app uploaded_file file_content file_hash text,
     effects ++ shown)
  else if decide (file_type uploaded_file = "text/plain") then
    match UTF8.decode file_content with
    | Some text =>
      (index_and_register now app uploaded_file file_content file_hash
         (Some text), effects)
    | None =>
      (app, effects
            ++ [st_error ("Error processing " +:+ file_name uploaded_file
                          +:+ ": ") UnicodeDecodeError])
    end
  else
    (app, effects
          ++ [st_warning ("Unsupported file type: "
                          +:+ file_type uploaded_file)]).

(** Lines 272 to 332, with the button pressed.  [now] is the reading of
    the clock; the files of one batch get the same reading. *)
Definition upload_documents (now : string)
    (uploaded_files : list UploadedFile) (app : App) : App * list Effect :=
  match uploaded_files with
  | [] => (app, [])
  | _ =>
    let '(duplicate_files, new_files_to_process) :=
      scan_uploads (documents_registry (session app)) uploaded_files [] [] in
    let '(app', effects) :=
      fold_left (process_new_file now) new_files_to_process
        (app, warn_duplicates duplicate_files) in
    (app', effects ++ _save_document_registry (session app')
           ++ [index_persist PERSIST_DIR (index app');
               st_success "Index updated successfully!"; st_rerun])
  end.

(** What the user does on the page. *)
Inductive Action :=
| upload_button (now : string) (uploaded_files : list UploadedFile)
| remove_selected (doc_to_remove : string)
| remove_all_button
| no_action.

(** Lines 335 to 369 without the widgets; the table of the documents is
    not modelled. *)
Definition show_documents (reg : gmap string DocInfo) : list Effect :=
  st_subheader "Uploaded Documents"
  :: (if decide (reg = ∅) then [st_write "No documents uploaded yet."]
      else []).

(** The removal widgets exist only for a non-empty registry, and the select
    box offers its keys only. *)
Definition render_document_management (action : Action) (app : App)
  : App * list Effect :=
  let reg := documents_registry (session app) in
  let idle := (app, st_subheader "Upload New Documents" :: show_documents reg) in
  match action with
  | upload_button now uploaded_files =>
    match uploaded_files with
    | [] => idle
    | _ =>
      let '(app', effects) := upload_documents now uploaded_files app in
      (app', st_subheader "Upload New Documents" :: effects)
    end
  | remove_selected doc_to_remove =>
    if decide (is_Some (reg !! doc_to_remove)) then
      let '(app', effects) := remove_document app doc_to_remove in
      (app', st_subheader "Upload New Documents" :: show_documents reg
             ++ effects ++ [st_rerun])
    else idle
  | remove_all_button =>
    if decide (reg = ∅) then idle
    else
      let '(app', effects) := remove_all_documents app in
      (app', st_subheader "Upload New Documents" :: show_documents reg
             ++ effects ++ [st_rerun])
  | no_action => idle
  end.

End DocumentQueryApp.

(** ** The registry file while [_save_document_registry] runs

    [open(DOCUMENTS_META_FILE, 'w')] creates the file or cuts it to length
    zero; [json.dump] then writes the text from left to right.  A crash may
    stop the writing after any character. *)
Inductive FileOp :=
| open_w
| write (c : ascii).

Definition file_op (file : option string) (op : FileOp) : option string :=
  match op with
  | open_w => Some EmptyString
  | write c =>
    Some (default EmptyString file +:+ String c EmptyString)
  end.

Definition save_registry_ops (st : SessionState) : list FileOp :=
  open_w
  :: (write <$> list_ascii_of_string
                  (JSON_files.dumps_registry (documents_registry st))).

(** The file when the save is stopped after its first [k] steps. *)
Definition save_interrupted (k : nat) (st : SessionState)
    (file : option string) : option string :=
  fold_left file_op (take k (save_registry_ops st)) file.

(** The file when the save ran to its end. *)
Definition save_completed (st : SessionState) (file : option string)
  : option string :=
  fold_left file_op (save_registry_ops st) file.

(** ** Sequences of operations *)

(** [doc.metadata.get('filename')] *)
Definition tag (doc : Document) : option string :=
  metadata doc !! "filename".

Definition empty_app : App := {| session := fresh_session; index := [] |}.

Inductive Op :=
| insert_files (now : string) (uploaded_files : list UploadedFile)
| remove (filename : string)
| remove_all.

Section Runs.

Variable pdf_pages : list byte -> Exception + list (option string).

Definition apply_op (app : App) (op : Op) : App :=
  match op with
  | insert_files now uploaded_files =>
    fst (upload_documents pdf_pages now uploaded_files app)
  | remove filename => fst (remove_document app filename)
  | remove_all => fst (remove_all_documents app)
  end.

Definition run (ops : list Op) (app : App) : App :=
  fold_left apply_op ops app.

(** The text an upload is indexed under, if any (lines 304 to 310). *)
Definition extracted_text (uploaded_file : UploadedFile) : option string :=
  if decide (file_type uploaded_file = "application/pdf") then
    fst (_extract_pdf_text pdf_pages (getvalue uploaded_file))
  else if decide (file_type uploaded_file = "text/plain") then
    UTF8.decode (getvalue uploaded_file)
  else None.

Definition file_hash_of (u : UploadedFile) : string :=
  _generate_file_hash (getvalue u).

Definition new_item (u : UploadedFile) : UploadedFile * list byte * string :=
  (u, getvalue u, file_hash_of u).

(** What processing a new file does to the state... *)
Definition accept (now : string) (app : App) (u : UploadedFile) : App :=
  index_and_register now app u (getvalue u) (file_hash_of u)
    (extracted_text u).

(** ... and what it shows. *)
Definition file_effects (u : UploadedFile) : list Effect :=
  if decide (file_type u = "application/pdf") then
    snd (_extract_pdf_text pdf_pages (getvalue u))
  else if decide (file_type u = "text/plain") then
    match UTF8.decode (getvalue u) with
    | Some _ => []
    | None =>
      [st_error ("Error processing " +:+ file_name u +:+ ": ")
         UnicodeDecodeError]
    end
  else [st_warning ("Unsupported file type: " +:+ file_type u)].

End Runs.

(** The contents uploaded by a sequence of operations. *)
Definition uploaded_contents (ops : list Op) : list (list byte) :=
  ops ≫= (fun op =>
    match op with
    | insert_files _ uploaded_files => getvalue <$> uploaded_files
    | _ => []
    end).

Definition distinct_content (ops : list Op) : Prop :=
  NoDup (uploaded_contents ops).

(** As many registry entries as indexed documents. *)
Definition count_agrees (app : App) : Prop :=
  size (documents_registry (session app)) = length (index app).

(** Every registered name tags an indexed document, and every tag in the
    index is a registered name. *)
Definition corresponds (app : App) : Prop :=
  (forall filename,
     is_Some (documents_registry (session app) !! filename) ->
     exists doc, doc ∈ index app /\ tag doc = Some filename)
  /\ (forall doc filename,
        doc ∈ index app -> tag doc = Some filename ->
        is_Some (documents_registry (session app) !! filename)).

(** The names of a batch are pairwise distinct and not registered yet. *)
Definition fresh_names (uploaded_files : list UploadedFile) (app : App)
  : Prop :=
  NoDup (file_name <$> uploaded_files)
  /\ Forall (fun f => documents_registry (session app) !! file_name f = None)
       uploaded_files.

Fixpoint fresh_run (pdf_pages : list byte -> Exception + list (option string))
    (ops : list Op) (app : App) : Prop :=
  match ops with
  | [] => True
  | op :: rest =>
    match op with
    | insert_files _ uploaded_files => fresh_names uploaded_files app
    | _ => True
    end
    /\ fresh_run pdf_pages rest (apply_op pdf_pages app op)
  end.

(** A PDF reader that rejects every file, for runs without PDF uploads. *)
Definition reject_pdf (pdf_file : list byte)
  : Exception + list (option string) :=
  inl (LibraryError "EOF marker not found").

(** An engine that answers nothing, for runs without queries. *)
Definition silent_engine (docs : list Document) (prompt : string)
  : Response :=
  {| response_text := EmptyString; source_nodes := [] |}.

Definition text_file (name content : string) : UploadedFile :=
  {| file_name := name; file_type := "text/plain";
     getvalue := list_byte_of_string content |}.

(** ** The registry and the tags of the index *)

(** The file names the documents of an index are tagged with. *)
Definition tags (docs : list Document) : list string := omap tag docs.

(** Every document carries a tag, and the registered names are the tags. *)
Definition tags_registered (app : App) : Prop :=
  Forall (fun doc => is_Some (tag doc)) (index app)
  /\ dom (documents_registry (session app))
     =@{gset string} list_to_set (tags (index app)).

(** ** Sample inputs *)

Definition numbered_entry (n : nat) : QueryEntry :=
  {| question := "question " +:+ pretty n;
     response := "answer " +:+ pretty n;
     timestamp := "2024-01-01 00:00:00" |}.

(** The registry after [a.txt] with the content [alpha] was uploaded. *)
Definition one_document : App :=
  run reject_pdf
    [insert_files "2024-01-01 00:00:00" [text_file "a.txt" "alpha"]]
    empty_app.

Definition two_documents : App :=
  run reject_pdf
    [insert_files "2024-01-01 00:00:00"
       [text_file "a.txt" "alpha"; text_file "b.txt" "beta"]]
    empty_app.

(** An index that holds a document of a file the registry does not know. *)
Definition orphan_document : App :=
  {| session := fresh_session;
     index := [ {| text := "alpha";
                   metadata := {[ "filename" := "a.txt" ]} |} ] |}.

Definition sample_run : list Op :=
  [ insert_files "2024-01-01 00:00:00"
      [text_file "a.txt" "alpha"; text_file "b.txt" "beta"];
    remove "a.txt";
    insert_files "2024-01-02 00:00:00" [text_file "a.txt" "gamma"];
    remove_all;
    insert_files "2024-01-03 00:00:00" [text_file "c.txt" "delta"] ].

(** Closed lists of pairwise different values. *)
Ltac distinct_values :=
  repeat (apply NoDup_cons; split;
          [ let Hin := fresh "Hin" in
            intros Hin;
            repeat (apply elem_of_cons in Hin as [Hin|Hin];
                    [discriminate Hin|]);
            by apply elem_of_nil in Hin
          | ]);
  apply NoDup_nil_2.

Ltac all_unregistered :=
  repeat (apply Forall_cons; split; [vm_compute; reflexivity|]);
  apply Forall_nil_2.

(** ** The history page, the settings and the page as a whole *)

(** What a page shows beside the effects of the document operations, and
    the configuration of the models. *)
Inductive Output :=
| shown (e : Effect)
| st_title (s : string)
| st_header (s : string)
| st_info (s : string)
| settings_configured (api_key : option string) (model : string).

(** The buttons of the history page. *)
Inductive HistoryAction :=
| delete_button (idx : nat)
| clear_all_button
| no_history_action.

(** Lines 153 to 157: what is shown of the entry of rank [idx]. *)
Definition history_row (len idx : nat) (entry : QueryEntry) : list Effect :=
  [ st_markdown ("**Query " +:+ pretty (len - idx + 1) +:+ ":**");
    st_write ("Question: " +:+ question entry);
    st_write ("Timestamp: " +:+ timestamp entry);
    st_markdown (response entry) ].

(** [enumerate(reversed(history), 1)] *)
Definition ranked (history : list QueryEntry) : list (nat * QueryEntry) :=
  imap (fun i entry => (S i, entry)) (reverse history).

(** Lines 149 to 166: the rows are shown from the newest entry on; the
    pressed delete button deletes, saves and reruns, which ends the loop.
    The last component tells whether the script was rerun. *)
Fixpoint show_history (len : nat) (rows : list (nat * QueryEntry))
    (pressed : option nat) (st : SessionState)
  : SessionState * list Effect * bool :=
  match rows with
  | [] => (st, [], false)
  | (idx, entry) :: rest =>
    if decide (pressed = Some idx) then
      let '(st', effects) := delete_history_entry idx st in
      (st', history_row len idx entry ++ effects, true)
    else
      let '(st', effects, rerun) := show_history len rest pressed st in
      (st', history_row len idx entry ++ st_markdown "---" :: effects, rerun)
  end.

(** [render_history_section] *)
Definition render_history_section (action : HistoryAction)
    (st : SessionState) : SessionState * list Output :=
  let history := query_history st in
  match history with
  | [] =>
    (st, [st_header "Query History";
          shown (st_write "No query history available.")])
  | _ =>
    let pressed :=
      match action with
      | delete_button idx => Some idx
      | _ => None
      end in
    let '(st', effects, rerun) :=
      show_history (length history) (ranked history) pressed st in
    if rerun then (st', st_header "Query History" :: (shown <$> effects))
    else
      match action with
      | clear_all_button =>
        let '(st'', cleared) := clear_history st' in
        (st'', st_header "Query History" :: (shown <$> effects ++ cleared))
      | _ => (st', st_header "Query History" :: (shown <$> effects))
      end
  end.

(** The keys [api_key] and [selected_model] of the session state. *)
Record Settings := {
  api_key : option string;
  selected_model : string
}.

Definition initial_settings : Settings :=
  {| api_key := None; selected_model := "gpt-4o-mini" |}.

Definition available_models : list string :=
  ["gpt-4o-mini"; "gpt-4o"; "gpt-3.5-turbo"; "gpt-4-turbo"].

(** [l.index(x)], [None] where Python raises [ValueError]. *)
Definition list_index (x : string) (l : list string) : option nat :=
  fst <$> list_find (fun y => y = x) l.

(** [configure_settings(api_key)] *)
Definition configure_settings (api_key : option string) (cfg : Settings)
  : list Output :=
  [settings_configured api_key (selected_model cfg)].

(** [render_model_configuration]: [picked] is the position the user chose
    in the select box, if any; the box shows the current model otherwise.
    [None] is the [ValueError] of [available_models.index]. *)
Definition render_model_configuration (picked : option nat) (cfg : Settings)
  : option (Settings * list Output) :=
  match list_index (selected_model cfg) available_models with
  | None => None
  | Some index =>
    let selected_model' :=
      default (selected_model cfg)
        (available_models !! default index picked) in
    if decide (selected_model' <> selected_model cfg) then
      let cfg' :=
        {| api_key := api_key cfg; selected_model := selected_model' |} in
      Some (cfg', shown (st_subheader "Model Selection")
                  :: configure_settings (api_key cfg') cfg'
                  ++ [shown st_rerun])
    else Some (cfg, [shown (st_subheader "Model Selection")])
  end.

(** [render_api_key_section]: [pressed] is the text of the input field
    when the button was pressed. *)
Definition render_api_key_section (pressed : option string) (cfg : Settings)
  : Settings * list Output :=
  match api_key cfg with
  | None =>
    match pressed with
    | Some api_key_input =>
      let cfg' :=
        {| api_key := Some api_key_input;
           selected_model := selected_model cfg |} in
      (cfg', st_header "Set Your OpenAI API Key"
             :: configure_settings (Some api_key_input) cfg'
             ++ [shown st_rerun])
    | None => (cfg, [st_header "Set Your OpenAI API Key"])
    end
  | Some key => (cfg, configure_settings (Some key) cfg)
  end.

(** What the user does during one run of the script. *)
Inductive UserInput :=
| enter_key (api_key_input : string)
| ask (prompt : string)
| manage (action : Action)
| pick_model (position : nat)
| history_button (action : HistoryAction)
| idle.

(** [not st.session_state.api_key] *)
Definition no_key (cfg : Settings) : bool :=
  match api_key cfg with
  | None => true
  | Some key => bool_decide (key = EmptyString)
  end.

Definition title : string :=
  string_of_list_byte [xc3; xb0; xc5; xb8; xe2; x80; x9c; xc5; xa1]
  +:+ " Document Query Assistant".

(** The end of a run of the script: the new settings and state with what
    was shown, or the exception that left [run]. *)
Inductive Outcome :=
| finished (cfg : Settings) (app : App) (output : list Output)
| raised (e : Exception) (cfg : Settings) (app : App) (output : list Output).

(** [st.rerun()] ends the script; it is then the last thing that happened. *)
Definition ends_with_rerun (effects : list Effect) : bool :=
  match last effects with
  | Some st_rerun => true
  | _ => false
  end.

Definition reran (output : list Output) : bool :=
  match last output with
  | Some (shown st_rerun) => true
  | _ => false
  end.

Section Page.

Variable pdf_pages : list byte -> Exception + list (option string).
Variable query_engine : list Document -> string -> Response.

(** Lines 380 to 404.  [index app] is the persisted index, which
    [load_index] reads unless it raises [load_error].  A tab that reruns
    the script ends the run. *)
Definition render_tabs (now : string) (input : UserInput)
    (load_error : option Exception) (cfg : Settings) (app : App)
    (output : list Output) : Outcome :=
  match load_error with
  | Some e => raised e cfg app output
  | None =>
    let output :=
      output ++ [st_info ("Current Model: " +:+ selected_model cfg)] in
    let '(app, tab1) :=
      render_question_section query_engine now
        (match input with ask prompt => Some prompt | _ => None end) app in
    let output := output ++ (shown <$> tab1) in
    let '(app, tab2) :=
      render_document_management pdf_pages
        (match input with manage action => action | _ => no_action end)
        app in
    let output := output ++ (shown <$> tab2) in
    if ends_with_rerun tab2 then finished cfg app output
    else
      match render_model_configuration
              (match input with pick_model i => Some i | _ => None end) cfg
      with
      | None =>
        raised (LibraryError "ValueError") cfg app
          (output ++ [shown (st_subheader "Model Selection")])
      | Some (cfg', tab3) =>
        let output := output ++ tab3 in
        if reran tab3 then finished cfg' app output
        else
          let '(st, tab4) :=
            render_history_section
              (match input with
               | history_button action => action
               | _ => no_history_action
               end) (session app) in
          finished cfg' {| session := st; index := index app |}
            (output ++ tab4)
      end
  end.

(** [run], after [__init__] has loaded the session state. *)
Definition DocumentQueryApp_run (now : string) (input : UserInput)
    (load_error : option Exception) (cfg : Settings) (app : App)
  : Outcome :=
  let output := [st_title title] in
  if no_key cfg then
    let '(cfg', shown_key) :=
      render_api_key_section
        (match input with enter_key text => Some text | _ => None end) cfg in
    let output := output ++ shown_key in
    if reran shown_key then finished cfg' app output
    else if no_key cfg' then finished cfg' app output
    else render_tabs now input load_error cfg' app output
  else render_tabs now input load_error cfg app output.

End Page.

(** The state an outcome leaves. *)
Definition outcome_settings (o : Outcome) : Settings :=
  match o with
  | finished cfg _ _ | raised _ cfg _ _ => cfg
  end.

Definition outcome_app (o : Outcome) : App :=
  match o with
  | finished _ app _ | raised _ _ app _ => app
  end.

Definition outcome_output (o : Outcome) : list Output :=
  match o with
  | finished _ _ output | raised _ _ _ output => output
  end.

(** ** Notions for the further properties *)

(** The document a new file is indexed as, if it is indexed (lines 312 and
    313). *)
Definition indexed_document
    (pdf_pages : list byte -> Exception + list (option string))
    (u : UploadedFile) : option Document :=
  match extracted_text pdf_pages u with
  | Some t =>
    if decide (t = EmptyString) then None
    else Some {| text := t;
                 metadata := {[ "filename" := file_name u ]} |}
  | None => None
  end.

(** The record a new file is registered with (lines 317 to 322). *)
Definition record_of (now : string) (u : UploadedFile) : DocInfo :=
  {| info_type := file_type u;
     info_size := length (getvalue u);
     info_date_added := now;
     info_hash := _generate_file_hash (getvalue u) |}.

(** The files of a batch that are processed: those whose hash the registry
    does not hold. *)
Definition new_files (reg : gmap string DocInfo)
    (uploaded_files : list UploadedFile) : list UploadedFile :=
  filter (fun u => is_duplicate reg (file_hash_of u) = false) uploaded_files.

(** No two registry entries hold the same hash. *)
Definition hashes_distinct (reg : gmap string DocInfo) : Prop :=
  forall f g i j,
    reg !! f = Some i -> reg !! g = Some j ->
    info_hash i = info_hash j -> f = g.

(** The files of every batch have pairwise different hashes. *)
Definition distinct_batches (ops : list Op) : Prop :=
  Forall (fun op =>
            match op with
            | insert_files _ uploaded_files =>
              NoDup (file_hash_of <$> uploaded_files)
            | _ => True
            end) ops.

(** Every record is of a supported type and holds the size and the hash of
    some content; every indexed document has a text. *)
Definition well_formed (app : App) : Prop :=
  map_Forall
    (fun _ doc_info =>
       (info_type doc_info = "application/pdf"
        \/ info_type doc_info = "text/plain")
       /\ exists content : list byte,
            info_size doc_info = length content
            /\ info_hash doc_info = _generate_file_hash content)
    (documents_registry (session app))
  /\ Forall (fun doc => text doc <> EmptyString) (index app).



(** The history after a sequence of questions and button presses. *)
Inductive HistoryStep :=
| answered (query_entry : QueryEntry)
| deleted (idx : nat)
| cleared.

Definition history_step (st : SessionState) (step : HistoryStep)
  : SessionState :=
  match step with
  | answered query_entry =>
    set_history st (append_query (query_history st) query_entry)
  | deleted idx => fst (delete_history_entry idx st)
  | cleared => fst (clear_history st)
  end.


(** A PDF reader that finds two pages without text in every file. *)
Definition blank_pages (pdf_file : list byte)
  : Exception + list (option string) :=
  inr [None; Some EmptyString].

Definition pdf_file (name content : string) : UploadedFile :=
  {| file_name := name; file_type := "application/pdf";
     getvalue := list_byte_of_string content |}.

(** Uploads of one file each; the second file repeats the content of the
    first, the last one its name. *)
Definition one_at_a_time : list Op :=
  [ insert_files "2024-01-01 00:00:00" [text_file "a.txt" "alpha"];
    insert_files "2024-01-02 00:00:00" [text_file "b.txt" "alpha"];
    insert_files "2024-01-03 00:00:00" [text_file "c.txt" "gamma"];
    remove "a.txt";
    insert_files "2024-01-04 00:00:00" [text_file "c.txt" "alpha"] ].

(** The state the tab that an input belongs to leaves. *)
Definition state_after
    (pdf_pages : list byte -> Exception + list (option string))
    (query_engine : list Document -> string -> Response)
    (now : string) (input : UserInput) (app : App) : App :=
  match input with
  | ask prompt =>
    fst (render_question_section query_engine now (Some prompt) app)
  | manage action => fst (render_document_management pdf_pages action app)
  | history_button action =>
    {| session := fst (render_history_section action (session app));
       index := index app |}
  | _ => app
  end.

(** ** Checks of the library models *)

Example md5_empty :
  MD5.hexdigest [] = "d41d8cd98f00b204e9800998ecf8427e".
Proof. vm_compute. reflexivity. Qed.

Example md5_abc :
  MD5.hexdigest (list_byte_of_string "abc")
  = "900150983cd24fb0d6963f7d28e17f72".
Proof. vm_compute. reflexivity. Qed.

Example md5_two_blocks :
  MD5.hexdigest
    (list_byte_of_string
       ("1234567890123456789012345678901234567890"
        +:+ "1234567890123456789012345678901234567890"))
  = "57edf4a22be3c955ac49da2e2107b67a".
Proof. vm_compute. reflexivity. Qed.

Example utf8_rejects_overlong : UTF8.decode [xc0; x80] = None.
Proof. reflexivity. Qed.

Example utf8_rejects_surrogate : UTF8.decode [xed; xa0; x80] = None.
Proof. reflexivity. Qed.

Example utf8_rejects_cut_sequence : UTF8.decode [xe2; x82] = None.
Proof. reflexivity. Qed.

Example utf8_accepts_euro :
  UTF8.decode [xe2; x82; xac] = Some (string_of_list_byte [xe2; x82; xac]).
Proof. reflexivity. Qed.

Example json_escapes :
  JSON.encode_str
    (string_of_list_byte [x62; xc3; xa9; xf0; x9f; x98; x80; x7f; x0a; x22])
  = JSON.quote +:+ "b\u00e9\ud83d\ude00\u007f\n\" +:+ JSON.quote
    +:+ JSON.quote.
Proof. vm_compute. reflexivity. Qed.

Example json_empty_registry : JSON_files.dumps_registry ∅ = "{}".
Proof. reflexivity. Qed.

Example json_one_record :
  JSON_files.dumps_registry (documents_registry (session one_document))
  = String.concat JSON.newline
      [ "{";
        "    " +:+ JSON.encode_str "a.txt" +:+ ": {";
        "        " +:+ JSON.encode_str "type" +:+ ": "
          +:+ JSON.encode_str "text/plain" +:+ ",";
        "        " +:+ JSON.encode_str "size" +:+ ": 5,";
        "        " +:+ JSON.encode_str "date_added" +:+ ": "
          +:+ JSON.encode_str "2024-01-01 00:00:00" +:+ ",";
        "        " +:+ JSON.encode_str "hash" +:+ ": "
          +:+ JSON.encode_str "2c1743a391305fbf367df8e4f069f9f9";
        "    }";
        "}" ].
Proof. vm_compute. reflexivity. Qed.

(** ** Basic facts about the operations *)

Lemma rebuilt_documents (docs : list Document) :
  (fun doc => {| text := text doc; metadata := metadata doc |}) <$> docs
  = docs.
Proof.
  induction docs as [|[t m] docs IH]; [done|].
  cbn [fmap list_fmap]. f_equal. exact IH.
Qed.

Lemma remove_document_index (app : App) (filename : string) :
  index (fst (remove_document app filename))
  = filter (fun doc => tag doc <> Some filename) (index app).
Proof.
  unfold remove_document.
  destruct (decide (is_Some (documents_registry (session app) !! filename)));
    cbn; apply rebuilt_documents.
Qed.

Lemma remove_document_registry (app : App) (filename : string) :
  documents_registry (session (fst (remove_document app filename)))
  = delete filename (documents_registry (session app)).
Proof.
  unfold remove_document.
  destruct (decide (is_Some (documents_registry (session app) !! filename)))
    as [Hin|Hout]; cbn; [done|].
  symmetry. apply delete_id.
  destruct (documents_registry (session app) !! filename) eqn:E; [|done].
  exfalso. apply Hout. by eexists.
Qed.

Lemma remove_document_history (app : App) (filename : string) :
  query_history (session (fst (remove_document app filename)))
  = query_history (session app).
Proof.
  unfold remove_document.
  destruct (decide (is_Some (documents_registry (session app) !! filename)));
    done.
Qed.

(** An answered question puts its entry into the history through
    [append_query]. *)
Lemma render_question_section_history
    (query_engine : list Document -> string -> Response)
    (now prompt : string) (app : App) :
  documents_registry (session app) <> ∅ ->
  prompt <> EmptyString ->
  query_history
    (session (fst (render_question_section query_engine now (Some prompt)
                     app)))
  = append_query (query_history (session app))
      {| question := prompt;
         response := response_text (query_engine (index app) prompt);
         timestamp := now |}.
Proof.
  intros Hreg Hprompt. unfold render_question_section.
  by rewrite !decide_False.
Qed.

Lemma filter_all_kept {A} (P : A -> Prop) `{!forall x, Decision (P x)}
    (l : list A) :
  Forall P l -> filter P l = l.
Proof.
  induction 1 as [|x l Hx _ IH]; [done|].
  rewrite filter_cons, decide_True by done. by rewrite IH.
Qed.

Lemma string_app_assoc (s1 s2 s3 : string) :
  (s1 +:+ s2) +:+ s3 = s1 +:+ (s2 +:+ s3).
Proof.
  induction s1 as [|c s1 IH]; [done|].
  change (String c ((s1 +:+ s2) +:+ s3) = String c (s1 +:+ (s2 +:+ s3))).
  by f_equal.
Qed.

Lemma string_app_empty (s : string) : s +:+ EmptyString = s.
Proof.
  induction s as [|c s IH]; [done|].
  change (String c (s +:+ EmptyString) = String c s). by f_equal.
Qed.

Lemma writes_append (cs : list ascii) (written : string) :
  fold_left file_op (write <$> cs) (Some written)
  = Some (written +:+ string_of_list_ascii cs).
Proof.
  revert written. induction cs as [|c cs IH]; intros written.
  - cbn. by rewrite string_app_empty.
  - change (fold_left file_op (write <$> c :: cs) (Some written))
      with (fold_left file_op (write <$> cs)
              (Some (written +:+ String c EmptyString))).
    rewrite IH, string_app_assoc. done.
Qed.

Lemma dumps_registry_not_empty (reg : gmap string DocInfo) :
  JSON_files.dumps_registry reg <> EmptyString.
Proof.
  unfold JSON_files.dumps_registry.
  destruct (map_to_list reg); discriminate.
Qed.

(** ** The upload, one file at a time *)

Section Upload.

Variable pdf_pages : list byte -> Exception + list (option string).

Lemma scan_uploads_spec (reg : gmap string DocInfo)
    (files : list UploadedFile) (dups : list string)
    (news : list (UploadedFile * list byte * string)) :
  scan_uploads reg files dups news
  = (dups ++ (file_name
                <$> filter (fun u => is_duplicate reg (file_hash_of u) = true)
                      files),
     news ++ (new_item
                <$> filter (fun u => is_duplicate reg (file_hash_of u) = false)
                      files)).
Proof.
  revert dups news.
  induction files as [|u files IH]; intros dups news.
  - cbn. by rewrite !app_nil_r.
  - cbn [scan_uploads]. rewrite !filter_cons.
    fold (file_hash_of u).
    destruct (is_duplicate reg (file_hash_of u)) eqn:E.
    + rewrite IH, decide_True, decide_False by done.
      cbn [fmap list_fmap]. by rewrite <- app_assoc.
    + rewrite IH, decide_False, decide_True by done.
      cbn [fmap list_fmap]. by rewrite <- app_assoc.
Qed.

Lemma process_new_file_spec (now : string) (app : App)
    (effects : list Effect) (u : UploadedFile) :
  process_new_file pdf_pages now (app, effects) (new_item u)
  = (accept pdf_pages now app u, effects ++ file_effects pdf_pages u).
Proof.
  unfold process_new_file, new_item, accept, file_effects, extracted_text.
  destruct (decide (file_type u = "application/pdf")).
  - by destruct (_extract_pdf_text pdf_pages (getvalue u)).
  - destruct (decide (file_type u = "text/plain")).
    + destruct (UTF8.decode (getvalue u)); [|done].
      by rewrite app_nil_r.
    + done.
Qed.

Lemma process_new_files_spec (now : string) (files : list UploadedFile)
    (app : App) (effects : list Effect) :
  fold_left (process_new_file pdf_pages now) (new_item <$> files)
    (app, effects)
  = (fold_left (accept pdf_pages now) files app, effects ++ (files ≫= file_effects pdf_pages)).
Proof.
  revert app effects.
  induction files as [|u files IH]; intros app effects.
  - cbn. by rewrite app_nil_r.
  - cbn [fmap list_fmap fold_left].
    rewrite process_new_file_spec, IH.
    cbn [mbind list_bind]. by rewrite <- app_assoc.
Qed.

(** The upload of a batch: the files whose hash the registry of the start
    does not hold are processed in turn; the names of the others are
    listed. *)
Lemma upload_documents_spec (now : string) (files : list UploadedFile)
    (app : App) :
  files <> [] ->
  let reg := documents_registry (session app) in
  let dups := filter (fun u => is_duplicate reg (file_hash_of u) = true)
                files in
  let news := filter (fun u => is_duplicate reg (file_hash_of u) = false)
                files in
  let app' := fold_left (accept pdf_pages now) news app in
  upload_documents pdf_pages now files app
  = (app',
     warn_duplicates (file_name <$> dups) ++ (news ≫= file_effects pdf_pages)
     ++ _save_document_registry (session app')
     ++ [index_persist PERSIST_DIR (index app');
         st_success "Index updated successfully!"; st_rerun]).
Proof.
  intros Hne reg dups news app'.
  unfold upload_documents. destruct files as [|u files]; [done|].
  rewrite scan_uploads_spec, !app_nil_l.
  fold reg dups news.
  rewrite process_new_files_spec. fold app'.
  by rewrite <- app_assoc.
Qed.

Lemma upload_documents_state (now : string) (files : list UploadedFile)
    (app : App) :
  fst (upload_documents pdf_pages now files app)
  = fold_left (accept pdf_pages now)
      (filter (fun u => is_duplicate (documents_registry (session app))
                          (file_hash_of u) = false) files)
      app.
Proof.
  destruct files as [|u files]; [done|].
  by rewrite upload_documents_spec.
Qed.

Lemma is_duplicate_true (reg : gmap string DocInfo) (file_hash : string) :
  is_duplicate reg file_hash = true
  <-> exists filename doc_info,
        reg !! filename = Some doc_info /\ info_hash doc_info = file_hash.
Proof.
  unfold is_duplicate. rewrite bool_decide_eq_true.
  unfold map_Exists. done.
Qed.

End Upload.

Lemma file_effects_extracted
    (pdf_pages : list byte -> Exception + list (option string))
    (u : UploadedFile) (t : string) :
  extracted_text pdf_pages u = Some t -> file_effects pdf_pages u = [].
Proof.
  unfold extracted_text, file_effects, _extract_pdf_text.
  destruct (decide (file_type u = "application/pdf")).
  - destruct (pdf_pages (getvalue u)); [discriminate|done].
  - destruct (decide (file_type u = "text/plain")); [|discriminate].
    destruct (UTF8.decode (getvalue u)); [done|discriminate].
Qed.

(** ** The registered names are the tags of the index *)

Lemma tags_snoc (docs : list Document) (doc : Document) (name : string) :
  tag doc = Some name -> tags (docs ++ [doc]) = tags docs ++ [name].
Proof.
  intros Htag. unfold tags. rewrite omap_app. cbn. by rewrite Htag.
Qed.

Lemma tags_filter (docs : list Document) (filename : string) :
  tags (filter (fun doc => tag doc <> Some filename) docs)
  = filter (fun name => name <> filename) (tags docs).
Proof.
  unfold tags. induction docs as [|doc docs IH]; [done|].
  rewrite filter_cons. cbn [omap list_omap].
  destruct (tag doc) as [name|] eqn:Htag.
  - rewrite filter_cons.
    destruct (decide (name = filename)) as [->|Hne].
    + rewrite decide_False by (intros H; by apply H).
      rewrite decide_False by (intros H; by apply H). exact IH.
    + rewrite decide_True by congruence.
      rewrite decide_True by done.
      cbn [omap list_omap]. rewrite Htag. by rewrite IH.
  - rewrite decide_True by done.
    cbn [omap list_omap]. rewrite Htag. exact IH.
Qed.

Lemma length_tags (docs : list Document) :
  Forall (fun doc => is_Some (tag doc)) docs ->
  length (tags docs) = length docs.
Proof.
  unfold tags. induction 1 as [|doc docs [name Hname] _ IH]; [done|].
  cbn. rewrite Hname. cbn. by rewrite IH.
Qed.

Lemma tags_registered_corresponds (app : App) :
  tags_registered app -> corresponds app.
Proof.
  intros [_ Hdom]. split.
  - intros filename Hin. apply elem_of_dom in Hin.
    rewrite Hdom, elem_of_list_to_set in Hin.
    apply list_elem_of_omap in Hin as (doc & Hdoc & Htag). eauto.
  - intros doc filename Hdoc Htag. apply elem_of_dom.
    rewrite Hdom, elem_of_list_to_set.
    apply list_elem_of_omap. eauto.
Qed.

Lemma tags_registered_count (app : App) :
  tags_registered app -> NoDup (tags (index app)) -> count_agrees app.
Proof.
  intros [Hall Hdom] Hnodup. unfold count_agrees.
  rewrite <- (size_dom (D := gset string)), Hdom.
  rewrite size_list_to_set by done. by apply length_tags.
Qed.

Section Invariant.

Variable pdf_pages : list byte -> Exception + list (option string).

(** A file is skipped, or it is indexed under its name and registered. *)
Lemma accept_cases (now : string) (app : App) (u : UploadedFile) :
  accept pdf_pages now app u = app
  \/ exists t doc_info,
       accept pdf_pages now app u
       = {| session :=
              set_registry (session app)
                (<[ file_name u := doc_info ]>
                   (documents_registry (session app)));
            index := index app
                     ++ [ {| text := t;
                             metadata := {[ "filename" := file_name u ]} |} ]
         |}.
Proof.
  unfold accept, index_and_register.
  destruct (extracted_text pdf_pages u) as [t|]; [|by left].
  destruct (decide (t = EmptyString)); [by left|].
  right. by eexists _, _.
Qed.

Lemma accept_tags_registered (now : string) (app : App) (u : UploadedFile) :
  tags_registered app -> tags_registered (accept pdf_pages now app u).
Proof.
  intros [Hall Hdom].
  destruct (accept_cases now app u) as [->|(t & doc_info & ->)]; [done|].
  split; cbn.
  - apply Forall_app. split; [done|].
    apply Forall_cons. split; [|done].
    unfold tag. cbn. rewrite lookup_singleton_eq. by eexists.
  - rewrite dom_insert_L, Hdom.
    rewrite (tags_snoc _ _ (file_name u))
      by (unfold tag; cbn; apply lookup_singleton_eq).
    rewrite list_to_set_snoc_L. apply (comm_L _).
Qed.

Lemma accept_all_tags_registered (now : string) (files : list UploadedFile)
    (app : App) :
  tags_registered app ->
  tags_registered (fold_left (accept pdf_pages now) files app).
Proof.
  revert app. induction files as [|u files IH]; intros app Hinv; [done|].
  cbn. by apply IH, accept_tags_registered.
Qed.

Lemma accept_all_tags_distinct (now : string) (files : list UploadedFile)
    (app : App) :
  tags_registered app ->
  NoDup (tags (index app)) ->
  NoDup (file_name <$> files) ->
  Forall (fun u => documents_registry (session app) !! file_name u = None)
    files ->
  NoDup (tags (index (fold_left (accept pdf_pages now) files app))).
Proof.
  revert app.
  induction files as [|u files IH]; intros app Hinv Htags Hnames Hfresh;
    [done|].
  apply NoDup_cons in Hnames as [Hu Hnames].
  apply Forall_cons in Hfresh as [Hfresh_u Hfresh].
  cbn [fold_left].
  pose proof (accept_tags_registered now app u Hinv) as Hinv'.
  destruct (accept_cases now app u) as [Heq|(t & doc_info & Heq)];
    rewrite Heq in *.
  - by apply IH.
  - apply IH; [done| |done|].
    + cbn. rewrite (tags_snoc _ _ (file_name u))
        by (unfold tag; cbn; apply lookup_singleton_eq).
      apply NoDup_app. split_and!; [done| |apply NoDup_singleton].
      intros name Hname Hsame. apply list_elem_of_singleton in Hsame.
      subst name. destruct Hinv as [_ Hdom].
      apply not_elem_of_dom in Hfresh_u.
      apply Hfresh_u. by rewrite Hdom, elem_of_list_to_set.
    + apply Forall_forall. intros v Hv.
      rewrite Forall_forall in Hfresh. specialize (Hfresh v Hv). cbn.
      rewrite lookup_insert_ne; [done|].
      intros Hsame. apply Hu. rewrite Hsame.
      by apply list_elem_of_fmap_2.
Qed.

End Invariant.

Lemma filter_names_distinct (P : UploadedFile -> Prop)
    `{!forall u, Decision (P u)} (files : list UploadedFile) :
  NoDup (file_name <$> files) -> NoDup (file_name <$> filter P files).
Proof.
  induction files as [|u files IH]; [done|].
  cbn [fmap list_fmap]. intros [Hu Hrest]%NoDup_cons.
  rewrite filter_cons. destruct (decide (P u)); [|by apply IH].
  cbn [fmap list_fmap]. apply NoDup_cons. split; [|by apply IH].
  intros (v & Hname & Hv)%list_elem_of_fmap. apply Hu.
  apply list_elem_of_filter in Hv as [_ Hv].
  rewrite Hname. by apply list_elem_of_fmap_2.
Qed.

Lemma filter_keeps_Forall {A} (P Q : A -> Prop) `{!forall x, Decision (P x)}
    (l : list A) :
  Forall Q l -> Forall Q (filter P l).
Proof.
  rewrite !Forall_forall. intros HQ x Hx.
  apply list_elem_of_filter in Hx as [_ Hx]. by apply HQ.
Qed.

Lemma tags_filter_set (names : list string) (filename : string) :
  list_to_set (filter (fun name => name <> filename) names)
  =@{gset string} list_to_set names ∖ {[ filename ]}.
Proof.
  apply set_eq. intros name.
  rewrite elem_of_difference, !elem_of_list_to_set, list_elem_of_filter,
    elem_of_singleton.
  tauto.
Qed.

Section Steps.

Variable pdf_pages : list byte -> Exception + list (option string).

Lemma apply_op_tags_registered (app : App) (op : Op) :
  tags_registered app -> tags_registered (apply_op pdf_pages app op).
Proof.
  intros Hinv. destruct op as [now files|filename|]; cbn [apply_op].
  - rewrite upload_documents_state. by apply accept_all_tags_registered.
  - destruct Hinv as [Hall Hdom]. split.
    + rewrite remove_document_index. by apply filter_keeps_Forall.
    + rewrite remove_document_registry, remove_document_index.
      by rewrite dom_delete_L, Hdom, tags_filter, tags_filter_set.
  - split; cbn; [done|]. by rewrite dom_empty_L.
Qed.

Lemma apply_op_tags_distinct (app : App) (op : Op) :
  tags_registered app ->
  NoDup (tags (index app)) ->
  match op with
  | insert_files _ uploaded_files => fresh_names uploaded_files app
  | _ => True
  end ->
  NoDup (tags (index (apply_op pdf_pages app op))).
Proof.
  intros Hinv Htags Hfresh.
  destruct op as [now files|filename|]; cbn [apply_op].
  - destruct Hfresh as [Hnames Hnone].
    rewrite upload_documents_state.
    apply accept_all_tags_distinct; [done|done| |].
    + by apply filter_names_distinct.
    + by apply filter_keeps_Forall.
  - rewrite remove_document_index, tags_filter. by apply NoDup_filter.
  - cbn. apply NoDup_nil_2.
Qed.

Lemma run_tags_registered (ops : list Op) (app : App) :
  tags_registered app -> tags_registered (run pdf_pages ops app).
Proof.
  revert app. induction ops as [|op ops IH]; intros app Hinv; [done|].
  cbn. by apply IH, apply_op_tags_registered.
Qed.

Lemma run_tags_distinct (ops : list Op) (app : App) :
  tags_registered app ->
  NoDup (tags (index app)) ->
  fresh_run pdf_pages ops app ->
  NoDup (tags (index (run pdf_pages ops app))).
Proof.
  revert app.
  induction ops as [|op ops IH]; intros app Hinv Htags Hfresh; [done|].
  destruct Hfresh as [Hop Hrest]. cbn [run fold_left].
  apply IH; [by apply apply_op_tags_registered| |done].
  by apply apply_op_tags_distinct.
Qed.

Lemma fresh_run_take (k : nat) (ops : list Op) (app : App) :
  fresh_run pdf_pages ops app -> fresh_run pdf_pages (take k ops) app.
Proof.
  revert k app. induction ops as [|op ops IH]; intros k app Hfresh.
  - by rewrite take_nil.
  - destruct k as [|k]; [done|].
    destruct Hfresh as [Hop Hrest]. cbn [take fresh_run]. split; [done|].
    by apply IH.
Qed.

End Steps.

Lemma empty_app_tags_registered : tags_registered empty_app.
Proof. split; cbn; [done|]. by rewrite dom_empty_L. Qed.

(** Whatever is uploaded and removed, starting from nothing: the
    registered names are the tags of the index. *)
Lemma run_corresponds
    (pdf_pages : list byte -> Exception + list (option string))
    (ops : list Op) :
  corresponds (run pdf_pages ops empty_app).
Proof.
  apply tags_registered_corresponds, run_tags_registered,
    empty_app_tags_registered.
Qed.

(** ** Theorems *)

(** C1, as stated, fails: two uploads with different contents and the
    same name leave one registry entry and two indexed documents. *)
Lemma same_name_breaks_count :
  let ops :=
    [ insert_files "2024-01-01 00:00:00" [text_file "a.txt" "alpha"];
      insert_files "2024-01-02 00:00:00" [text_file "a.txt" "beta"] ] in
  distinct_content ops
  /\ size (documents_registry (session (run reject_pdf ops empty_app))) = 1
  /\ length (index (run reject_pdf ops empty_app)) = 2
  /\ ~ count_agrees (run reject_pdf ops empty_app).
Proof.
  cbv zeta. split_and!.
  - unfold distinct_content. vm_compute.
    apply NoDup_cons. split; [|apply NoDup_singleton].
    intros H%list_elem_of_singleton. discriminate H.
  - vm_compute. reflexivity.
  - vm_compute. reflexivity.
  - unfold count_agrees. vm_compute. discriminate.
Qed.

(** C1, amended. Start from an empty registry and an empty index and run
    uploads, removals and remove-all, where the uploaded contents are
    pairwise distinct and the file names of every batch are pairwise
    distinct and not registered when the batch is uploaded.  Then after
    every operation the registry has as many entries as the index has
    documents, every registered name tags an indexed document, and every
    tag in the index is a registered name. *)
Theorem registry_matches_index
    (pdf_pages : list byte -> Exception + list (option string))
    (ops : list Op) (k : nat) :
  distinct_content ops ->
  fresh_run pdf_pages ops empty_app ->
  count_agrees (run pdf_pages (take k ops) empty_app)
  /\ corresponds (run pdf_pages (take k ops) empty_app).
Proof.
  intros _ Hfresh. split; [|apply run_corresponds].
  apply tags_registered_count.
  - apply run_tags_registered, empty_app_tags_registered.
  - apply run_tags_distinct.
    + apply empty_app_tags_registered.
    + apply NoDup_nil_2.
    + by apply fresh_run_take.
Qed.

Lemma registry_matches_index_witness :
  count_agrees (run reject_pdf (take 3 sample_run) empty_app)
  /\ corresponds (run reject_pdf (take 3 sample_run) empty_app).
Proof.
  apply (registry_matches_index reject_pdf sample_run 3).
  - unfold distinct_content. vm_compute. distinct_values.
  - cbn [sample_run fresh_run apply_op]. unfold fresh_names.
    split_and!; try exact I;
      first [ vm_compute; distinct_values | all_unregistered ].
Defined.

(** C2. A file of a batch whose content hash is the hash of some registry
    record is rejected whatever its name: the duplicate warning is shown
    and the name of the file is listed under it, and the registry, the
    history and the index come out exactly as if the file had not been in
    the batch; uploaded alone, it leaves the state unchanged. *)
Theorem duplicate_upload_rejected
    (pdf_pages : list byte -> Exception + list (option string))
    (now : string) (before : list UploadedFile) (u : UploadedFile)
    (after : list UploadedFile) (app : App) :
  (exists filename doc_info,
     documents_registry (session app) !! filename = Some doc_info
     /\ info_hash doc_info = _generate_file_hash (getvalue u)) ->
  let out := upload_documents pdf_pages now (before ++ u :: after) app in
  st_warning "Duplicate files detected:" ∈ snd out
  /\ st_write ("- " +:+ file_name u) ∈ snd out
  /\ fst out = fst (upload_documents pdf_pages now (before ++ after) app)
  /\ fst (upload_documents pdf_pages now [u] app) = app.
Proof.
  intros Hreg out.
  assert (Hdup : is_duplicate (documents_registry (session app))
                   (file_hash_of u) = true)
    by by apply is_duplicate_true.
  assert (Hne : before ++ u :: after <> [])
    by (by destruct before).
  subst out. split_and!.
  - rewrite upload_documents_spec by done. cbn [snd].
    rewrite filter_app, filter_cons, decide_True by done.
    rewrite fmap_app, fmap_cons.
    apply elem_of_app. left.
    destruct (file_name <$> filter _ before); cbn; apply elem_of_cons;
      by left.
  - rewrite upload_documents_spec by done. cbn [snd].
    rewrite filter_app, filter_cons, decide_True by done.
    rewrite fmap_app, fmap_cons.
    apply elem_of_app. left.
    assert (Hin : file_name u
                  ∈ (file_name <$> filter
                       (fun u0 => is_duplicate
                                    (documents_registry (session app))
                                    (file_hash_of u0) = true) before)
                    ++ file_name u :: (file_name <$> filter
                       (fun u0 => is_duplicate
                                    (documents_registry (session app))
                                    (file_hash_of u0) = true) after))
      by (apply elem_of_app; right; apply elem_of_cons; by left).
    revert Hin. generalize (file_name u).
    intros name Hin.
    match type of Hin with _ ∈ ?l => destruct l as [|n l'] end.
    + by apply elem_of_nil in Hin.
    + unfold warn_duplicates. apply elem_of_cons. right.
      by apply (list_elem_of_fmap_2
                  (fun dup_file => st_write ("- " +:+ dup_file))).
  - rewrite !upload_documents_state.
    rewrite !filter_app, filter_cons, decide_False; [done|].
    rewrite Hdup. discriminate.
  - rewrite upload_documents_state.
    rewrite filter_cons, decide_False; [done|].
    rewrite Hdup. discriminate.
Qed.

Lemma duplicate_upload_rejected_witness :
  fst (upload_documents reject_pdf "2024-01-02 00:00:00"
         [text_file "b.txt" "alpha"] one_document)
  = one_document.
Proof.
  apply (duplicate_upload_rejected reject_pdf "2024-01-02 00:00:00"
           [] (text_file "b.txt" "alpha") [] one_document).
  exists "a.txt". eexists. split; vm_compute; reflexivity.
Defined.

(** C3: two files of one batch with the same content are both indexed and
    both registered, under the same hash and without any duplicate
    warning, while the same two files in two batches end with the second
    one rejected. *)
Example in_batch_duplicate_accepted :
  let a := text_file "a.txt" "hello" in
  let b := text_file "b.txt" "hello" in
  let batch := upload_documents reject_pdf "2024-01-01 00:00:00" [a; b]
                 empty_app in
  let first := upload_documents reject_pdf "2024-01-01 00:00:00" [a]
                 empty_app in
  let second := upload_documents reject_pdf "2024-01-01 00:00:00" [b]
                  (fst first) in
  _generate_file_hash (getvalue a) = _generate_file_hash (getvalue b)
  /\ info_hash <$> documents_registry (session (fst batch)) !! "a.txt"
     = Some "5d41402abc4b2a76b9719d911017c592"
  /\ info_hash <$> documents_registry (session (fst batch)) !! "b.txt"
     = Some "5d41402abc4b2a76b9719d911017c592"
  /\ text <$> index (fst batch) = ["hello"; "hello"]
  /\ snd batch
     = _save_document_registry (session (fst batch))
       ++ [index_persist PERSIST_DIR (index (fst batch));
           st_success "Index updated successfully!"; st_rerun]
  /\ documents_registry (session (fst second)) !! "b.txt" = None
  /\ text <$> index (fst second) = ["hello"]
  /\ st_write "- b.txt" ∈ snd second.
Proof.
  cbv zeta. split_and!; try (vm_compute; reflexivity).
  vm_compute. apply elem_of_cons. right. apply elem_of_cons. by left.
Qed.

(** C4, as stated, fails: for a file name that is not registered,
    [remove_document] still rebuilds the index without the documents
    tagged with the name, and it reports the removal as a success. *)
Lemma remove_absent_reports_success :
  documents_registry (session orphan_document) !! "a.txt" = None
  /\ index (fst (remove_document orphan_document "a.txt"))
     <> index orphan_document
  /\ snd (remove_document orphan_document "a.txt")
     = [index_persist PERSIST_DIR [];
        st_success "Document 'a.txt' removed successfully."].
Proof. split_and!; [reflexivity|discriminate|reflexivity]. Qed.

(** C4, amended. For a file name that is not registered, [remove_document]
    leaves the session state as it is, rebuilds the index from the
    documents not tagged with the name (the same documents when none
    carries the tag), persists it and reports a successful removal; no
    not-found report exists.  A second removal of the same name changes
    nothing any more and reports success again. *)
Theorem remove_absent_document (app : App) (filename : string) :
  documents_registry (session app) !! filename = None ->
  let app' := fst (remove_document app filename) in
  session app' = session app
  /\ index app' = filter (fun doc => tag doc <> Some filename) (index app)
  /\ (Forall (fun doc => tag doc <> Some filename) (index app) -> app' = app)
  /\ snd (remove_document app filename)
     = [index_persist PERSIST_DIR (index app');
        st_success ("Document '" +:+ filename +:+ "' removed successfully.")]
  /\ remove_document app' filename
     = (app', [index_persist PERSIST_DIR (index app');
               st_success ("Document '" +:+ filename
                           +:+ "' removed successfully.")]).
Proof.
  intros Habsent app'.
  assert (Hnot : ~ is_Some (documents_registry (session app) !! filename))
    by (rewrite Habsent; apply is_Some_None).
  assert (Hsession : session app' = session app).
  { subst app'. unfold remove_document. by rewrite decide_False. }
  assert (Hindex : index app'
                   = filter (fun doc => tag doc <> Some filename) (index app))
    by apply remove_document_index.
  split_and!.
  - done.
  - done.
  - intros Hall. destruct app as [st docs], app' as [st' docs'].
    cbn in *. subst st'. rewrite Hindex. f_equal.
    by apply filter_all_kept.
  - subst app'. rewrite Hindex. unfold remove_document.
    rewrite decide_False by done. cbn. by rewrite rebuilt_documents.
  - assert (Hnot' : ~ is_Some (documents_registry (session app') !! filename))
      by (rewrite Hsession; done).
    unfold remove_document at 1. rewrite decide_False by done.
    rewrite rebuilt_documents. unfold from_documents.
    assert (Hsame : filter (fun doc => metadata doc !! "filename"
                                       <> Some filename) (index app')
                    = index app').
    { rewrite Hindex. apply filter_all_kept, Forall_forall.
      intros doc Hdoc. by apply list_elem_of_filter in Hdoc as [? _]. }
    rewrite Hsame. by destruct app'.
Qed.

Lemma remove_absent_document_witness :
  fst (remove_document two_documents "c.txt") = two_documents.
Proof.
  apply (remove_absent_document two_documents "c.txt").
  - reflexivity.
  - repeat constructor; discriminate.
Defined.

(** C5. Removing a registered file name deletes its registry entry and
    leaves every other entry as it was; the rebuilt index is the old
    docstore without the documents tagged with that name, so no document
    of the new index carries the name and every document with another tag
    (or none) is still there with its text and metadata.  The registry is
    saved, the index persisted and the removal reported. *)
Theorem remove_document_removes (app : App) (filename : string) :
  is_Some (documents_registry (session app) !! filename) ->
  let app' := fst (remove_document app filename) in
  documents_registry (session app') !! filename = None
  /\ (forall other, other <> filename ->
        documents_registry (session app') !! other
        = documents_registry (session app) !! other)
  /\ index app' = filter (fun doc => tag doc <> Some filename) (index app)
  /\ (forall doc, doc ∈ index app' -> tag doc <> Some filename)
  /\ (forall doc, doc ∈ index app -> tag doc <> Some filename ->
        doc ∈ index app')
  /\ snd (remove_document app filename)
     = _save_document_registry (session app')
       ++ [index_persist PERSIST_DIR (index app');
           st_success ("Document '" +:+ filename
                       +:+ "' removed successfully.")].
Proof.
  intros Hin app'. subst app'.
  rewrite remove_document_registry, remove_document_index.
  split_and!.
  - apply lookup_delete_eq.
  - intros other Hne. by apply lookup_delete_ne.
  - done.
  - intros doc Hdoc. by apply list_elem_of_filter in Hdoc as [? _].
  - intros doc Hdoc Htag. by apply list_elem_of_filter.
  - unfold remove_document. rewrite decide_True by done. cbn.
    by rewrite rebuilt_documents.
Qed.

Lemma remove_document_removes_witness :
  documents_registry (session (fst (remove_document two_documents "a.txt")))
    !! "a.txt" = None.
Proof.
  apply (remove_document_removes two_documents "a.txt").
  vm_compute. eexists. reflexivity.
Defined.

(** C6, as stated, fails: the last document was removed and the registry,
    now empty, is being saved over the file that still lists the document.
    Stopped right after [open(..., 'w')], the save leaves an empty file,
    which is neither the old text nor the new one. *)
Lemma save_registry_crash_leaves_empty_file :
  let old_file :=
    Some (JSON_files.dumps_registry
            (documents_registry (session two_documents))) in
  save_interrupted 1 fresh_session old_file = Some EmptyString
  /\ ~ (save_interrupted 1 fresh_session old_file = old_file
        \/ save_interrupted 1 fresh_session old_file
           = save_completed fresh_session old_file).
Proof.
  split; [reflexivity|].
  intros [H|H]; vm_compute in H; discriminate.
Qed.

(** C6, amended. The save is not atomic: it opens the registry file for
    writing, which empties it, and then writes the JSON text from left to
    right.  Stopped before the open, it leaves the old file; stopped later,
    it leaves a prefix of the new text, and right after the open the empty
    file, which is never the complete new text.  Run to its end, it leaves
    the complete new text. *)
Theorem save_registry_not_atomic (st : SessionState) (file : option string)
    (k : nat) :
  let new_text := JSON_files.dumps_registry (documents_registry st) in
  _save_document_registry st = [json_dump_file DOCUMENTS_META_FILE new_text]
  /\ save_completed st file = Some new_text
  /\ save_interrupted 0 st file = file
  /\ save_interrupted (S k) st file
     = Some (string_of_list_ascii (take k (list_ascii_of_string new_text)))
  /\ save_interrupted 1 st file = Some EmptyString
  /\ Some EmptyString <> Some new_text.
Proof.
  intros new_text. unfold save_completed, save_interrupted, save_registry_ops.
  fold new_text. split_and!.
  - done.
  - cbn. by rewrite writes_append, string_of_list_ascii_of_string.
  - done.
  - cbn. by rewrite <- fmap_take, writes_append.
  - done.
  - intros [=H]. symmetry in H. by apply dumps_registry_not_empty in H.
Qed.

(** C7, as stated, fails: with documents registered in the session and no
    registry file, the load keeps the registered documents. *)
Lemma load_without_file_keeps_session :
  documents_registry
    (fst (_load_document_registry no_file (session two_documents)))
  <> ∅.
Proof.
  intros H. apply (f_equal (fun m => m !! "a.txt")) in H.
  vm_compute in H. discriminate.
Qed.

(** C7, amended. Without a registry file the load leaves the session
    registry as it is, which is the empty registry when the session is
    new; when opening or parsing the file raises, the load reports the
    error and sets the empty registry; a file that loads replaces the
    session registry.  In no case does the load fail. *)
Theorem load_document_registry_tolerant (st : SessionState) (e : Exception)
    (v : gmap string DocInfo) (history_file : FileRead (list QueryEntry)) :
  _load_document_registry no_file st = (st, [])
  /\ documents_registry
       (fst (DocumentQueryApp_init None no_file history_file)) = ∅
  /\ _load_document_registry (load_raises e) st
     = (set_registry st ∅,
        [st_error "Error loading document registry: " e])
  /\ documents_registry
       (fst (DocumentQueryApp_init None (load_raises e) history_file)) = ∅
  /\ _load_document_registry (loaded v) st = (set_registry st v, []).
Proof.
  split_and!; try done; by destruct history_file.
Qed.

(** C8. Appending a query to the history (lines 197 to 201) leaves at most
    50 entries; on a history of exactly 50 entries it drops the oldest one,
    keeps the other 49 in their order and puts the new entry last, so that
    50 entries remain; a shorter history only grows by the new entry. *)
Theorem query_history_capped (history : list QueryEntry)
    (query_entry : QueryEntry) :
  length (append_query history query_entry) <= 50
  /\ (length history = 50 ->
      append_query history query_entry = drop 1 history ++ [query_entry]
      /\ length (append_query history query_entry) = 50)
  /\ (length history < 50 ->
      append_query history query_entry = history ++ [query_entry]).
Proof.
  unfold append_query, last_50.
  assert (Hlen : length (history ++ [query_entry]) = S (length history))
    by (rewrite length_app; cbn; lia).
  split_and!.
  - destruct (Nat.ltb_spec 50 (length (history ++ [query_entry]))).
    + rewrite length_drop. lia.
    + lia.
  - intros H50. rewrite Hlen, H50.
    replace (50 <? 51)%nat with true by done.
    replace (51 - 50) with 1 by done.
    rewrite drop_app_le by lia.
    split; [done|].
    rewrite length_app, length_drop. cbn. lia.
  - intros Hlt. rewrite Hlen.
    destruct (Nat.ltb_spec 50 (S (length history))); [lia|done].
Qed.

Lemma query_history_capped_witness :
  append_query (numbered_entry <$> seq 0 50) (numbered_entry 50)
  = drop 1 (numbered_entry <$> seq 0 50) ++ [numbered_entry 50]
  /\ length (append_query (numbered_entry <$> seq 0 50) (numbered_entry 50))
     = 50.
Proof.
  apply (query_history_capped (numbered_entry <$> seq 0 50)
           (numbered_entry 50)).
  vm_compute. reflexivity.
Defined.

(** C9. With an empty registry the question section only shows the
    warning that asks for a document: the state is unchanged, no prompt is
    sent to the query engine and the history gets no entry, whatever the
    prompt and the engine are. *)
Theorem empty_registry_short_circuits
    (query_engine : list Document -> string -> Response)
    (now : string) (prompt : option string) (app : App) :
  documents_registry (session app) = ∅ ->
  render_question_section query_engine now prompt app
  = (app, [st_warning "Please upload a document to start asking questions."])
  /\ (forall p,
        engine_query p
        ∉ snd (render_question_section query_engine now prompt app))
  /\ query_history
       (session (fst (render_question_section query_engine now prompt app)))
     = query_history (session app).
Proof.
  intros Hempty. unfold render_question_section.
  rewrite decide_True by done. cbn.
  split_and!; [done| |done].
  intros p Hin. apply list_elem_of_singleton in Hin. discriminate.
Qed.

Lemma empty_registry_short_circuits_witness :
  render_question_section silent_engine "2024-01-01 00:00:00"
    (Some "What is in the report?") empty_app
  = (empty_app,
     [st_warning "Please upload a document to start asking questions."]).
Proof.
  apply (empty_registry_short_circuits silent_engine "2024-01-01 00:00:00"
           (Some "What is in the report?") empty_app).
  reflexivity.
Defined.

(** C10, as stated, fails: an empty text file has a hash that no record
    holds, and the name [a.txt] is registered, yet the upload neither
    overwrites the registry entry nor touches the index, because a file
    without text is skipped. *)
Lemma empty_upload_not_registered :
  let u := text_file "a.txt" EmptyString in
  let out := upload_documents reject_pdf "2024-01-02 00:00:00" [u]
               one_document in
  is_duplicate (documents_registry (session one_document))
    (_generate_file_hash (getvalue u)) = false
  /\ is_Some (documents_registry (session one_document) !! file_name u)
  /\ fst out = one_document
  /\ info_hash <$> documents_registry (session (fst out)) !! file_name u
     <> Some (_generate_file_hash (getvalue u)).
Proof.
  cbv zeta. split_and!.
  - vm_compute. reflexivity.
  - vm_compute. eexists. reflexivity.
  - vm_compute. reflexivity.
  - vm_compute. discriminate.
Qed.

(** C10, amended. Duplicates are decided by the content hash alone. A file
    whose hash no registry record holds and whose text is extracted and
    not empty is indexed and registered even when its name is registered
    already: the registry entry of that name is replaced by the new
    record, without any warning, and the index keeps all its documents,
    those tagged with that name included, and gets the new one at the
    end. *)
Theorem new_hash_overwrites_same_name
    (pdf_pages : list byte -> Exception + list (option string))
    (now : string) (u : UploadedFile) (app : App) (t : string) :
  is_duplicate (documents_registry (session app))
    (_generate_file_hash (getvalue u)) = false ->
  extracted_text pdf_pages u = Some t ->
  t <> EmptyString ->
  let doc := {| text := t; metadata := {[ "filename" := file_name u ]} |} in
  let doc_info :=
    {| info_type := file_type u;
       info_size := length (getvalue u);
       info_date_added := now;
       info_hash := _generate_file_hash (getvalue u) |} in
  let app' :=
    {| session :=
         set_registry (session app)
           (<[ file_name u := doc_info ]> (documents_registry (session app)));
       index := index app ++ [doc] |} in
  upload_documents pdf_pages now [u] app
  = (app',
     _save_document_registry (session app')
     ++ [index_persist PERSIST_DIR (index app');
         st_success "Index updated successfully!"; st_rerun])
  /\ documents_registry (session app') !! file_name u = Some doc_info
  /\ (forall old, old ∈ index app -> old ∈ index app').
Proof.
  intros Hnew Htext Hne doc doc_info app'.
  split_and!.
  - rewrite upload_documents_spec by done.
    rewrite filter_cons, decide_True, filter_cons, decide_False, !filter_nil;
      [|unfold file_hash_of; rewrite Hnew; done|exact Hnew].
    cbn [fold_left fmap list_fmap warn_duplicates mbind list_bind].
    rewrite (file_effects_extracted _ _ _ Htext).
    unfold accept, index_and_register. rewrite Htext.
    rewrite decide_False by done. done.
  - apply lookup_insert_eq.
  - intros old Hold. apply elem_of_app. by left.
Qed.

Lemma new_hash_overwrites_same_name_witness :
  fst (upload_documents reject_pdf "2024-01-02 00:00:00"
         [text_file "a.txt" "beta"] one_document)
  = {| session :=
         set_registry (session one_document)
           (<[ "a.txt" :=
                 {| info_type := "text/plain";
                    info_size := 4;
                    info_date_added := "2024-01-02 00:00:00";
                    info_hash :=
                      _generate_file_hash (list_byte_of_string "beta") |} ]>
              (documents_registry (session one_document)));
       index := index one_document
                ++ [ {| text := "beta";
                        metadata := {[ "filename" := "a.txt" ]} |} ] |}.
Proof.
  destruct (new_hash_overwrites_same_name reject_pdf "2024-01-02 00:00:00"
              (text_file "a.txt" "beta") one_document "beta")
    as (Hout & _).
  - vm_compute. reflexivity.
  - vm_compute. reflexivity.
  - discriminate.
  - rewrite Hout. reflexivity.
Defined.

(** ** Further properties of the upload *)

Section UploadFacts.

Variable pdf_pages : list byte -> Exception + list (option string).

Lemma indexed_document_None (u : UploadedFile) :
  indexed_document pdf_pages u = None
  <-> extracted_text pdf_pages u = None
      \/ extracted_text pdf_pages u = Some EmptyString.
Proof.
  unfold indexed_document.
  destruct (extracted_text pdf_pages u) as [t|]; [|by split; [left|]].
  destruct (decide (t = EmptyString)) as [->|Hne].
  - split; [by right|done].
  - split; [done|]. intros [H|[=H]]; [done|]. by destruct Hne.
Qed.

Lemma accept_skipped (now : string) (app : App) (u : UploadedFile) :
  indexed_document pdf_pages u = None -> accept pdf_pages now app u = app.
Proof.
  unfold indexed_document, accept, index_and_register.
  destruct (extracted_text pdf_pages u) as [t|]; [|done].
  by destruct (decide (t = EmptyString)).
Qed.

Lemma accept_indexed (now : string) (app : App) (u : UploadedFile)
    (doc : Document) :
  indexed_document pdf_pages u = Some doc ->
  accept pdf_pages now app u
  = {| session :=
         set_registry (session app)
           (<[ file_name u := record_of now u ]>
              (documents_registry (session app)));
       index := index app ++ [doc] |}.
Proof.
  unfold indexed_document, accept, index_and_register.
  destruct (extracted_text pdf_pages u) as [t|]; [|done].
  destruct (decide (t = EmptyString)); [done|].
  by intros [= <-].
Qed.

Lemma accept_all_index (now : string) (files : list UploadedFile)
    (app : App) :
  index (fold_left (accept pdf_pages now) files app)
  = index app ++ omap (indexed_document pdf_pages) files.
Proof.
  revert app. induction files as [|u files IH]; intros app.
  - cbn. by rewrite app_nil_r.
  - cbn [fold_left omap list_omap]. rewrite IH.
    destruct (indexed_document pdf_pages u) as [doc|] eqn:Hdoc.
    + rewrite (accept_indexed _ _ _ _ Hdoc). cbn. by rewrite <- app_assoc.
    + by rewrite (accept_skipped _ _ _ Hdoc).
Qed.

Lemma accept_all_history (now : string) (files : list UploadedFile)
    (app : App) :
  query_history (session (fold_left (accept pdf_pages now) files app))
  = query_history (session app).
Proof.
  revert app. induction files as [|u files IH]; intros app; [done|].
  cbn [fold_left]. rewrite IH.
  destruct (indexed_document pdf_pages u) as [doc|] eqn:Hdoc.
  - by rewrite (accept_indexed _ _ _ _ Hdoc).
  - by rewrite (accept_skipped _ _ _ Hdoc).
Qed.

Lemma accept_all_dom (now : string) (files : list UploadedFile)
    (app : App) :
  dom (documents_registry
         (session (fold_left (accept pdf_pages now) files app)))
  =@{gset string}
  dom (documents_registry (session app))
  ∪ list_to_set
      (file_name
         <$> filter (fun u => is_Some (indexed_document pdf_pages u)) files).
Proof.
  revert app. induction files as [|u files IH]; intros app.
  - cbn. by rewrite (right_id_L ∅ (∪)).
  - cbn [fold_left]. rewrite IH, filter_cons.
    destruct (indexed_document pdf_pages u) as [doc|] eqn:Hdoc.
    + rewrite (accept_indexed _ _ _ _ Hdoc), decide_True by by eexists.
      cbn [session set_registry documents_registry fmap list_fmap].
      rewrite dom_insert_L, list_to_set_cons.
      rewrite (comm_L (∪) {[file_name u]}), <- !(assoc_L (∪)). done.
    + rewrite (accept_skipped _ _ _ Hdoc), decide_False; [done|].
      by intros [? ?].
Qed.

Lemma new_files_app (reg : gmap string DocInfo)
    (l1 l2 : list UploadedFile) :
  new_files reg (l1 ++ l2) = new_files reg l1 ++ new_files reg l2.
Proof. apply filter_app. Qed.

Lemma upload_documents_new_files (now : string) (files : list UploadedFile)
    (app : App) :
  fst (upload_documents pdf_pages now files app)
  = fold_left (accept pdf_pages now)
      (new_files (documents_registry (session app)) files) app.
Proof. apply upload_documents_state. Qed.

Lemma file_effects_shown (now : string) (files : list UploadedFile)
    (app : App) (u : UploadedFile) (e : Effect) :
  u ∈ files ->
  is_duplicate (documents_registry (session app)) (file_hash_of u) = false ->
  e ∈ file_effects pdf_pages u ->
  e ∈ snd (upload_documents pdf_pages now files app).
Proof.
  intros Hu Hnew He.
  assert (Hne : files <> []) by (intros ->; by apply elem_of_nil in Hu).
  rewrite upload_documents_spec by done. cbn [snd].
  apply elem_of_app. right. apply elem_of_app. left.
  apply list_elem_of_bind. exists u. split; [done|].
  by apply list_elem_of_filter.
Qed.

End UploadFacts.

(** X1. The first loop of the upload splits the batch in two, in the order
    of the batch: the names of the files whose hash some registry record
    holds, and the other files with their content and hash.  Each file is
    compared with the registry only, never with the files before it. *)
Theorem scan_uploads_splits (reg : gmap string DocInfo)
    (uploaded_files : list UploadedFile) :
  let '(duplicate_files, new_files_to_process) :=
    scan_uploads reg uploaded_files [] [] in
  duplicate_files
  = file_name
      <$> filter (fun u => is_duplicate reg (file_hash_of u) = true)
            uploaded_files
  /\ new_files_to_process = new_item <$> new_files reg uploaded_files
  /\ length duplicate_files + length new_files_to_process
     = length uploaded_files.
Proof.
  rewrite scan_uploads_spec. cbn [app]. split_and!; [done|done|].
  rewrite !length_fmap. unfold new_files.
  induction uploaded_files as [|u files IH]; [done|].
  rewrite !filter_cons.
  destruct (is_duplicate reg (file_hash_of u)).
  - rewrite decide_True, decide_False by done. cbn [length]. lia.
  - rewrite decide_False, decide_True by done. cbn [length]. lia.
Qed.

(** X2. An upload only adds: the index is the old index followed by the
    documents of the new files that have a text, in the order of the
    batch; the history is untouched; the registered names are the old ones
    and the names of those files. *)
Theorem upload_only_adds
    (pdf_pages : list byte -> Exception + list (option string))
    (now : string) (uploaded_files : list UploadedFile) (app : App) :
  let app' := fst (upload_documents pdf_pages now uploaded_files app) in
  let news := new_files (documents_registry (session app)) uploaded_files in
  index app' = index app ++ omap (indexed_document pdf_pages) news
  /\ query_history (session app') = query_history (session app)
  /\ dom (documents_registry (session app'))
     =@{gset string}
     dom (documents_registry (session app))
     ∪ list_to_set
         (file_name
            <$> filter (fun u => is_Some (indexed_document pdf_pages u)) news)
  /\ (forall filename,
        is_Some (documents_registry (session app) !! filename) ->
        is_Some (documents_registry (session app') !! filename)).
Proof.
  intros app' news. subst app'.
  rewrite upload_documents_new_files. fold news.
  split_and!.
  - apply accept_all_index.
  - apply accept_all_history.
  - apply accept_all_dom.
  - intros filename Hin. apply elem_of_dom. rewrite accept_all_dom.
    apply elem_of_union. left. by apply elem_of_dom.
Qed.

(** X3. A file from which no text comes (unsupported type, bytes that are
    not UTF-8, a PDF the reader rejects, or an empty text) leaves no trace
    in the state: the batch ends in the state it would end in without the
    file. *)
Theorem file_without_text_is_skipped
    (pdf_pages : list byte -> Exception + list (option string))
    (now : string) (before : list UploadedFile) (u : UploadedFile)
    (after : list UploadedFile) (app : App) :
  extracted_text pdf_pages u = None
  \/ extracted_text pdf_pages u = Some EmptyString ->
  fst (upload_documents pdf_pages now (before ++ u :: after) app)
  = fst (upload_documents pdf_pages now (before ++ after) app).
Proof.
  intros Hskip%indexed_document_None.
  rewrite !upload_documents_new_files, !new_files_app.
  unfold new_files at 2. rewrite filter_cons.
  destruct (decide (is_duplicate (documents_registry (session app))
                      (file_hash_of u) = false)); [|done].
  rewrite !fold_left_app. cbn [fold_left].
  by rewrite accept_skipped.
Qed.

Lemma file_without_text_is_skipped_witness :
  fst (upload_documents reject_pdf "2024-01-02 00:00:00"
         [ text_file "b.txt" "beta";
           {| file_name := "c.png"; file_type := "image/png";
              getvalue := list_byte_of_string "PNG" |};
           text_file "d.txt" "delta" ] one_document)
  = fst (upload_documents reject_pdf "2024-01-02 00:00:00"
           [text_file "b.txt" "beta"; text_file "d.txt" "delta"]
           one_document).
Proof.
  apply (file_without_text_is_skipped reject_pdf "2024-01-02 00:00:00"
           [text_file "b.txt" "beta"]
           {| file_name := "c.png"; file_type := "image/png";
              getvalue := list_byte_of_string "PNG" |}
           [text_file "d.txt" "delta"] one_document).
  left. reflexivity.
Defined.

(** X4. What goes wrong with a new file is shown: a warning for a type
    that is neither PDF nor plain text, an error for plain text that is
    not UTF-8, and the error of the PDF reader for a PDF it rejects. *)
Theorem upload_failures_are_shown
    (pdf_pages : list byte -> Exception + list (option string))
    (now : string) (uploaded_files : list UploadedFile) (app : App)
    (u : UploadedFile) :
  u ∈ uploaded_files ->
  is_duplicate (documents_registry (session app))
    (_generate_file_hash (getvalue u)) = false ->
  let shown := snd (upload_documents pdf_pages now uploaded_files app) in
  (file_type u <> "application/pdf" -> file_type u <> "text/plain" ->
   st_warning ("Unsupported file type: " +:+ file_type u) ∈ shown)
  /\ (file_type u = "text/plain" -> UTF8.decode (getvalue u) = None ->
      st_error ("Error processing " +:+ file_name u +:+ ": ")
        UnicodeDecodeError ∈ shown)
  /\ (forall e, file_type u = "application/pdf" ->
        pdf_pages (getvalue u) = inl e ->
        st_error "Error extracting PDF text: " e ∈ shown).
Proof.
  intros Hu Hnew shown. subst shown. split_and!.
  - intros Hpdf Hplain. apply (file_effects_shown _ _ _ _ u); [done|done|].
    unfold file_effects. rewrite !decide_False by done.
    by apply list_elem_of_singleton.
  - intros Hplain Hdecode.
    apply (file_effects_shown _ _ _ _ u); [done|done|].
    unfold file_effects. rewrite decide_False by (rewrite Hplain; done).
    rewrite decide_True, Hdecode by done. by apply list_elem_of_singleton.
  - intros e Hpdf Hraise.
    apply (file_effects_shown _ _ _ _ u); [done|done|].
    unfold file_effects, _extract_pdf_text.
    rewrite decide_True, Hraise by done. by apply list_elem_of_singleton.
Qed.

Lemma upload_failures_are_shown_witness :
  st_error "Error extracting PDF text: " (LibraryError "EOF marker not found")
  ∈ snd (upload_documents reject_pdf "2024-01-02 00:00:00"
           [text_file "b.txt" "beta"; pdf_file "c.pdf" "not a PDF"]
           one_document).
Proof.
  apply (upload_failures_are_shown reject_pdf "2024-01-02 00:00:00"
           [text_file "b.txt" "beta"; pdf_file "c.pdf" "not a PDF"]
           one_document (pdf_file "c.pdf" "not a PDF")).
  - apply elem_of_cons. right. apply elem_of_cons. by left.
  - vm_compute. reflexivity.
  - reflexivity.
  - reflexivity.
Defined.

(** X5. A PDF whose pages all give no text is skipped without a word: the
    state is unchanged, nothing is shown about the file, and the upload
    still reports that the index was updated. *)
Theorem pdf_without_text_is_skipped_silently
    (pdf_pages : list byte -> Exception + list (option string))
    (now : string) (u : UploadedFile) (pages : list (option string))
    (app : App) :
  file_type u = "application/pdf" ->
  pdf_pages (getvalue u) = inr pages ->
  Forall (fun page => page = None \/ page = Some EmptyString) pages ->
  is_duplicate (documents_registry (session app))
    (_generate_file_hash (getvalue u)) = false ->
  upload_documents pdf_pages now [u] app
  = (app,
     _save_document_registry (session app)
     ++ [index_persist PERSIST_DIR (index app);
         st_success "Index updated successfully!"; st_rerun]).
Proof.
  intros Hpdf Hpages Hblank Hnew.
  assert (Htext : fold_left
                    (fun text page => text +:+ default EmptyString page)
                    pages EmptyString = EmptyString).
  { clear Hpages.
    induction Hblank as [|page pages [->| ->] _ IH];
      [done|exact IH|exact IH]. }
  assert (Hextracted : extracted_text pdf_pages u = Some EmptyString).
  { unfold extracted_text, _extract_pdf_text.
    rewrite decide_True, Hpages by done. cbn. by rewrite Htext. }
  rewrite upload_documents_spec by done.
  rewrite filter_cons, decide_True, filter_cons, decide_False, !filter_nil;
    [|unfold file_hash_of; rewrite Hnew; done|exact Hnew].
  cbn [fold_left fmap list_fmap warn_duplicates mbind list_bind].
  rewrite (file_effects_extracted _ _ _ Hextracted).
  rewrite accept_skipped; [done|].
  apply indexed_document_None. by right.
Qed.

Lemma pdf_without_text_is_skipped_silently_witness :
  fst (upload_documents blank_pages "2024-01-02 00:00:00"
         [pdf_file "scan.pdf" "scanned pages"] one_document)
  = one_document.
Proof.
  rewrite (pdf_without_text_is_skipped_silently blank_pages
             "2024-01-02 00:00:00" (pdf_file "scan.pdf" "scanned pages")
             [None; Some EmptyString] one_document).
  - reflexivity.
  - reflexivity.
  - reflexivity.
  - apply Forall_cons. split; [by left|].
    apply Forall_cons. split; [by right|]. apply Forall_nil_2.
  - vm_compute. reflexivity.
Defined.

(** ** Further properties of runs of operations *)

Lemma app_eq (a b : App) :
  documents_registry (session a) = documents_registry (session b) ->
  query_history (session a) = query_history (session b) ->
  index a = index b ->
  a = b.
Proof.
  destruct a as [[ra ha] ia], b as [[rb hb] ib]. cbn.
  by intros -> -> ->.
Qed.

Lemma extracted_text_supported
    (pdf_pages : list byte -> Exception + list (option string))
    (u : UploadedFile) (t : string) :
  extracted_text pdf_pages u = Some t ->
  file_type u = "application/pdf" \/ file_type u = "text/plain".
Proof.
  unfold extracted_text.
  destruct (decide (file_type u = "application/pdf")); [by left|].
  destruct (decide (file_type u = "text/plain")); [by right|done].
Qed.

Section Records.

Variable pdf_pages : list byte -> Exception + list (option string).

Lemma accept_well_formed (now : string) (app : App) (u : UploadedFile) :
  well_formed app -> well_formed (accept pdf_pages now app u).
Proof.
  intros [Hreg Hdocs].
  destruct (indexed_document pdf_pages u) as [doc|] eqn:Hdoc;
    [|by rewrite accept_skipped].
  rewrite (accept_indexed _ _ _ _ _ Hdoc).
  unfold indexed_document in Hdoc.
  destruct (extracted_text pdf_pages u) as [t|] eqn:Htext; [|done].
  destruct (decide (t = EmptyString)); [done|].
  injection Hdoc as <-.
  split; cbn.
  - apply map_Forall_insert_2; [|done]. split.
    + by eapply extracted_text_supported.
    + by exists (getvalue u).
  - apply Forall_app. split; [done|]. by apply Forall_singleton.
Qed.

Lemma apply_op_well_formed (app : App) (op : Op) :
  well_formed app -> well_formed (apply_op pdf_pages app op).
Proof.
  intros Hwf. destruct op as [now files|filename|]; cbn [apply_op].
  - rewrite upload_documents_state.
    generalize (filter
                  (fun u => is_duplicate (documents_registry (session app))
                              (file_hash_of u) = false) files).
    intros l. revert app Hwf.
    induction l as [|u l IH]; intros app Hwf; [done|].
    cbn [fold_left]. by apply IH, accept_well_formed.
  - destruct Hwf as [Hreg Hdocs]. split.
    + rewrite remove_document_registry. by apply map_Forall_delete.
    + rewrite remove_document_index. by apply filter_keeps_Forall.
  - split; cbn; [apply map_Forall_empty|done].
Qed.

(** One file added to a registry without its hash. *)
Lemma accept_hashes_distinct (now : string) (app : App) (u : UploadedFile) :
  hashes_distinct (documents_registry (session app)) ->
  is_duplicate (documents_registry (session app)) (file_hash_of u) = false ->
  hashes_distinct
    (documents_registry (session (accept pdf_pages now app u))).
Proof.
  intros Hdistinct Hnew.
  destruct (indexed_document pdf_pages u) as [doc|] eqn:Hdoc;
    [|by rewrite accept_skipped].
  rewrite (accept_indexed _ _ _ _ _ Hdoc). cbn.
  assert (Hfresh : forall g j,
             documents_registry (session app) !! g = Some j ->
             info_hash j <> file_hash_of u).
  { intros g j Hg Hhash.
    assert (is_duplicate (documents_registry (session app))
              (file_hash_of u) = true) as Hdup
      by (apply is_duplicate_true; eauto).
    rewrite Hnew in Hdup. discriminate. }
  intros f g i j Hf Hg Hhash.
  destruct (decide (f = file_name u)) as [->|Hf_ne],
           (decide (g = file_name u)) as [->|Hg_ne]; [done| | |].
  - rewrite lookup_insert_eq in Hf. injection Hf as <-.
    rewrite lookup_insert_ne in Hg by done.
    exfalso. by apply (Hfresh g j Hg).
  - rewrite lookup_insert_eq in Hg. injection Hg as <-.
    rewrite lookup_insert_ne in Hf by done.
    exfalso. by apply (Hfresh f i Hf).
  - rewrite lookup_insert_ne in Hf, Hg by done. by eapply Hdistinct.
Qed.

(** The records of a state after one more file: the old ones, or the
    record of the file. *)
Lemma accept_record (now : string) (app : App) (u : UploadedFile)
    (g : string) (j : DocInfo) :
  documents_registry (session (accept pdf_pages now app u)) !! g = Some j ->
  documents_registry (session app) !! g = Some j
  \/ info_hash j = file_hash_of u.
Proof.
  destruct (indexed_document pdf_pages u) as [doc|] eqn:Hdoc;
    [|rewrite accept_skipped by done; by left].
  rewrite (accept_indexed _ _ _ _ _ Hdoc). cbn.
  destruct (decide (g = file_name u)) as [->|Hne].
  - rewrite lookup_insert_eq. intros [= <-]. by right.
  - rewrite lookup_insert_ne by done. by left.
Qed.

Lemma accept_all_hashes_distinct (now : string) (files : list UploadedFile)
    (app : App) :
  hashes_distinct (documents_registry (session app)) ->
  NoDup (file_hash_of <$> files) ->
  Forall (fun u => is_duplicate (documents_registry (session app))
                     (file_hash_of u) = false) files ->
  hashes_distinct
    (documents_registry (session (fold_left (accept pdf_pages now) files app))).
Proof.
  revert app.
  induction files as [|u files IH]; intros app Hdistinct Hnodup Hnew;
    [done|].
  apply NoDup_cons in Hnodup as [Hu Hnodup].
  apply Forall_cons in Hnew as [Hnew_u Hnew].
  cbn [fold_left]. apply IH; [by apply accept_hashes_distinct|done|].
  apply Forall_forall. intros v Hv.
  rewrite Forall_forall in Hnew. specialize (Hnew v Hv).
  destruct (is_duplicate
              (documents_registry (session (accept pdf_pages now app u)))
              (file_hash_of v)) eqn:Hdup; [|done].
  apply is_duplicate_true in Hdup as (g & j & Hg & Hhash).
  apply accept_record in Hg as [Hold|Hsame].
  - assert (is_duplicate (documents_registry (session app))
              (file_hash_of v) = true) as Hdup'
      by (apply is_duplicate_true; eauto).
    rewrite Hnew in Hdup'. discriminate.
  - exfalso. apply Hu. rewrite <- Hsame, Hhash.
    by apply list_elem_of_fmap_2.
Qed.

Lemma apply_op_hashes_distinct (app : App) (op : Op) :
  hashes_distinct (documents_registry (session app)) ->
  match op with
  | insert_files _ uploaded_files => NoDup (file_hash_of <$> uploaded_files)
  | _ => True
  end ->
  hashes_distinct (documents_registry (session (apply_op pdf_pages app op))).
Proof.
  intros Hdistinct Hop.
  destruct op as [now files|filename|]; cbn [apply_op].
  - rewrite upload_documents_state.
    apply accept_all_hashes_distinct; [done| |].
    + clear Hdistinct. induction files as [|u files IH]; [done|].
      cbn [fmap list_fmap] in Hop. apply NoDup_cons in Hop as [Hu Hrest].
      rewrite filter_cons.
      destruct (decide _); [|by apply IH].
      cbn [fmap list_fmap]. apply NoDup_cons. split; [|by apply IH].
      intros (v & Hhash & Hv)%list_elem_of_fmap. apply Hu.
      apply list_elem_of_filter in Hv as [_ Hv].
      rewrite Hhash. by apply list_elem_of_fmap_2.
    + apply Forall_forall. intros u Hu.
      by apply list_elem_of_filter in Hu as [? _].
  - rewrite remove_document_registry. intros f g i j Hf Hg.
    apply lookup_delete_Some in Hf as [_ Hf].
    apply lookup_delete_Some in Hg as [_ Hg]. by eapply Hdistinct.
  - intros f g i j Hf.
    change (@empty (gmap string DocInfo) _ !! f = Some i) in Hf.
    by apply lookup_empty_Some in Hf.
Qed.

End Records.

(** X6. Whatever is uploaded and removed, starting from nothing: every
    registry record is of type PDF or plain text and holds the length and
    the MD5 hash of some content, and no indexed document has an empty
    text.  Files of other types and files without text are never
    registered. *)
Theorem run_well_formed
    (pdf_pages : list byte -> Exception + list (option string))
    (ops : list Op) :
  well_formed (run pdf_pages ops empty_app).
Proof.
  assert (Hinit : well_formed empty_app)
    by (split; cbn; [apply map_Forall_empty|done]).
  revert Hinit. generalize empty_app.
  induction ops as [|op ops IH]; intros app Hwf; [done|].
  cbn [run fold_left]. by apply IH, apply_op_well_formed.
Qed.

(** X7. When the files of every batch have pairwise different hashes (one
    file at a time, for instance), the registry never holds two records
    with the same hash, whatever the file names are: across batches the
    duplicate check does keep contents unique. *)
Theorem run_hashes_distinct
    (pdf_pages : list byte -> Exception + list (option string))
    (ops : list Op) :
  distinct_batches ops ->
  hashes_distinct
    (documents_registry (session (run pdf_pages ops empty_app))).
Proof.
  assert (Hinit : hashes_distinct (documents_registry (session empty_app))).
  { intros f g i j Hf.
    change (@empty (gmap string DocInfo) _ !! f = Some i) in Hf.
    by apply lookup_empty_Some in Hf. }
  revert Hinit. generalize empty_app.
  induction ops as [|op ops IH]; intros app Hdistinct Hbatches; [done|].
  apply Forall_cons in Hbatches as [Hop Hbatches].
  cbn [run fold_left]. apply IH; [|done].
  by apply apply_op_hashes_distinct.
Qed.

Lemma run_hashes_distinct_witness :
  hashes_distinct
    (documents_registry (session (run reject_pdf one_at_a_time empty_app))).
Proof.
  apply (run_hashes_distinct reject_pdf one_at_a_time).
  unfold distinct_batches, one_at_a_time.
  repeat (apply Forall_cons; split;
          [first [exact I | vm_compute; distinct_values]|]).
  apply Forall_nil_2.
Defined.

(** X8. After a document is removed, a hash counts as a duplicate exactly
    when a record under another name holds it: content that only the
    removed document had can be uploaded again. *)
Theorem removed_hash_is_free_again (app : App) (filename file_hash : string) :
  is_duplicate
    (documents_registry (session (fst (remove_document app filename)))) file_hash
  = true
  <-> exists other doc_info,
        other <> filename
        /\ documents_registry (session app) !! other = Some doc_info
        /\ info_hash doc_info = file_hash.
Proof.
  rewrite remove_document_registry, is_duplicate_true. split.
  - intros (g & j & Hg & Hhash).
    apply lookup_delete_Some in Hg as [Hne Hg]. by exists g, j.
  - intros (g & j & Hne & Hg & Hhash). exists g, j. split; [|done].
    by apply lookup_delete_Some.
Qed.

(** X9. After all documents are removed the registry and the index are
    empty and the history is kept; no hash is a duplicate any more, so
    every file of the next batch is processed, and questions are refused
    until a document is uploaded. *)
Theorem remove_all_forgets_the_documents
    (pdf_pages : list byte -> Exception + list (option string))
    (query_engine : list Document -> string -> Response)
    (app : App) (now : string) (uploaded_files : list UploadedFile)
    (prompt : option string) :
  let app' := fst (remove_all_documents app) in
  documents_registry (session app') = ∅
  /\ index app' = []
  /\ query_history (session app') = query_history (session app)
  /\ index (fst (upload_documents pdf_pages now uploaded_files app'))
     = omap (indexed_document pdf_pages) uploaded_files
  /\ render_question_section query_engine now prompt app'
     = (app',
        [st_warning "Please upload a document to start asking questions."]).
Proof.
  intros app'. split_and!; [done|done|done| |done].
  rewrite upload_documents_new_files, accept_all_index.
  change (index app') with (@nil Document). rewrite app_nil_l.
  f_equal. unfold new_files. apply filter_all_kept, Forall_forall.
  intros u _. unfold is_duplicate. apply bool_decide_eq_false.
  intros (g & j & Hg & _).
  change (@empty (gmap string DocInfo) _ !! g = Some j) in Hg.
  by apply lookup_empty_Some in Hg.
Qed.

(** X10. Removals commute: removing two documents in either order ends in
    the same registry, history and index. *)
Theorem remove_document_commutes (app : App) (f g : string) :
  fst (remove_document (fst (remove_document app f)) g)
  = fst (remove_document (fst (remove_document app g)) f).
Proof.
  apply app_eq.
  - rewrite !remove_document_registry. apply delete_delete.
  - by rewrite !remove_document_history.
  - rewrite !remove_document_index, !list_filter_filter.
    apply list_filter_iff. intros doc. tauto.
Qed.


(** ** Further properties of the pages *)

Lemma show_sources_shows (nodes : list string) (e : Effect) :
  e ∈ show_sources nodes -> exists s, e = st_markdown s \/ e = st_write s.
Proof.
  destruct nodes as [|node nodes]; [by intros ?%elem_of_nil|].
  unfold show_sources. intros [->|Hin]%elem_of_cons; [by eexists; left|].
  apply list_elem_of_fmap in Hin as (n & -> & _). by eexists; right.
Qed.

(** X12. A question never touches the registry or the index and writes no
    file but the history file; the query engine is called exactly when
    the registry is not empty and the prompt is not empty, and then with
    that prompt. *)
Theorem question_leaves_documents
    (query_engine : list Document -> string -> Response)
    (now : string) (prompt : option string) (app : App) :
  let '(app', effects) :=
    render_question_section query_engine now prompt app in
  documents_registry (session app') = documents_registry (session app)
  /\ index app' = index app
  /\ (forall p,
        engine_query p ∈ effects
        <-> documents_registry (session app) <> ∅
            /\ prompt = Some p /\ p <> EmptyString)
  /\ (forall path content,
        json_dump_file path content ∈ effects -> path = QUERY_HISTORY_FILE)
  /\ (forall dir docs, index_persist dir docs ∉ effects).
Proof.
  unfold render_question_section.
  destruct (decide (documents_registry (session app) = ∅)) as [Hempty|Hfull].
  { split_and!; [done|done| | |].
    - intros p. split; [|by intros [? _]].
      intros [=]%list_elem_of_singleton.
    - intros path content [=]%list_elem_of_singleton.
    - intros dir docs [=]%list_elem_of_singleton. }
  destruct prompt as [prompt|].
  2: { split_and!; [done|done| | |].
       - intros p. split; [|by intros (_ & [=] & _)].
         intros [=]%list_elem_of_singleton.
       - intros path content [=]%list_elem_of_singleton.
       - intros dir docs [=]%list_elem_of_singleton. }
  destruct (decide (prompt = EmptyString)) as [->|Hprompt].
  { split_and!; [done|done| | |].
    - intros p. split; [|by intros (_ & [= <-] & ?)].
      intros [=]%list_elem_of_singleton.
    - intros path content [=]%list_elem_of_singleton.
    - intros dir docs [=]%list_elem_of_singleton. }
  split_and!; [done|done| | |].
  - intros p. split.
    + rewrite !elem_of_app, !elem_of_cons, elem_of_nil.
      unfold _save_query_history.
      rewrite !elem_of_cons, !elem_of_nil.
      intros [[[=]|[[= ->]|[]]]|[[[=]|[]]|[[[=]|[[=]|[[=]|[[=]|[]]]]]|Hs]]];
        [done|].
      apply show_sources_shows in Hs as (s & [[=]|[=]]).
    + intros (_ & [= ->] & _).
      apply elem_of_app. left. apply elem_of_cons. right.
      apply elem_of_cons. by left.
  - intros path content.
    rewrite !elem_of_app, !elem_of_cons, elem_of_nil.
    unfold _save_query_history.
    rewrite !elem_of_cons, !elem_of_nil.
    intros [[[=]|[[=]|[]]]|[[[= -> _]|[]]|[[[=]|[[=]|[[=]|[[=]|[]]]]]|Hs]]];
      [done|].
    apply show_sources_shows in Hs as (s & [[=]|[=]]).
  - intros dir docs.
    rewrite !elem_of_app, !elem_of_cons, elem_of_nil.
    unfold _save_query_history.
    rewrite !elem_of_cons, !elem_of_nil.
    intros [[[=]|[[=]|[]]]|[[[=]|[]]|[[[=]|[[=]|[[=]|[[=]|[]]]]]|Hs]]].
    apply show_sources_shows in Hs as (s & [[=]|[=]]).
Qed.




Lemma show_history_pressed (len : nat) (rows : list (nat * QueryEntry))
    (idx : nat) (st : SessionState) :
  idx ∈ rows.*1 ->
  fst (fst (show_history len rows (Some idx) st))
  = fst (delete_history_entry idx st)
  /\ snd (show_history len rows (Some idx) st) = true.
Proof.
  induction rows as [|[i entry] rows IH]; intros Hin.
  - by apply elem_of_nil in Hin.
  - cbn [show_history].
    destruct (decide (Some idx = Some i)) as [[= ->]|Hne]; [done|].
    cbn in Hin. apply elem_of_cons in Hin as [->|Hin]; [done|].
    destruct (IH Hin) as [Hstate Hrerun].
    by destruct (show_history len rows (Some idx) st) as [[st' effects] rerun].
Qed.

Lemma ranked_lookup (before : list QueryEntry) (entry : QueryEntry)
    (after : list QueryEntry) :
  ranked (before ++ entry :: after) !! length after
  = Some (S (length after), entry).
Proof.
  unfold ranked. rewrite list_lookup_imap.
  rewrite reverse_app, reverse_cons, <- app_assoc. cbn [app].
  rewrite (list_lookup_middle _ _ _ (length after))
    by by rewrite length_reverse.
  done.
Qed.

(** The page of a history that is not empty. *)
Lemma render_history_section_rows (action : HistoryAction)
    (st : SessionState) :
  query_history st <> [] ->
  render_history_section action st
  = let pressed :=
      match action with
      | delete_button idx => Some idx
      | _ => None
      end in
    let '(st', effects, rerun) :=
      show_history (length (query_history st)) (ranked (query_history st))
        pressed st in
    if rerun then (st', st_header "Query History" :: (shown <$> effects))
    else
      match action with
      | clear_all_button =>
        let '(st'', history_cleared) := clear_history st' in
        (st'', st_header "Query History" :: (shown <$> effects ++ history_cleared))
      | _ => (st', st_header "Query History" :: (shown <$> effects))
      end.
Proof.
  unfold render_history_section. by destruct (query_history st).
Qed.

(** X14. The delete button of the history page removes the entry shown in
    its row: with the entries counted from the newest one, the button of
    rank [idx] deletes the entry of that rank, keeps the others in their
    order and leaves the registry alone. *)
Theorem delete_button_deletes_its_row (st : SessionState)
    (before : list QueryEntry) (entry : QueryEntry)
    (after : list QueryEntry) :
  query_history st = before ++ entry :: after ->
  let idx := S (length after) in
  ranked (query_history st) !! (idx - 1) = Some (idx, entry)
  /\ fst (render_history_section (delete_button idx) st)
     = set_history st (before ++ after).
Proof.
  intros Hh idx.
  assert (Hrow : ranked (query_history st) !! length after
                 = Some (idx, entry))
    by (rewrite Hh; apply ranked_lookup).
  split; [by replace (idx - 1) with (length after) by (subst idx; lia)|].
  assert (Hin : idx ∈ (ranked (query_history st)).*1).
  { apply list_elem_of_lookup_2 in Hrow.
    by apply (list_elem_of_fmap_2 fst) in Hrow. }
  destruct (show_history_pressed (length (query_history st))
              (ranked (query_history st)) idx st Hin) as [Hstate Hrerun].
  rewrite render_history_section_rows
    by (rewrite Hh; by destruct before).
  cbv zeta.
  destruct (show_history (length (query_history st))
              (ranked (query_history st)) (Some idx) st)
    as [[st' effects] rerun].
  cbn in Hstate, Hrerun. subst rerun st'. cbn [fst].
  unfold delete_history_entry. cbn [fst]. f_equal.
  rewrite Hh, length_app. cbn [length].
  replace (length before + S (length after) - idx) with (length before)
    by (subst idx; lia).
  apply delete_middle.
Qed.

Lemma delete_button_deletes_its_row_witness :
  fst (render_history_section (delete_button 2)
         {| documents_registry := ∅;
            query_history := numbered_entry <$> [0; 1; 2; 3] |})
  = {| documents_registry := ∅;
       query_history := numbered_entry <$> [0; 1; 3] |}.
Proof.
  destruct (delete_button_deletes_its_row
              {| documents_registry := ∅;
                 query_history := numbered_entry <$> [0; 1; 2; 3] |}
              (numbered_entry <$> [0; 1]) (numbered_entry 2)
              (numbered_entry <$> [3])) as [_ Hdeleted].
  - reflexivity.
  - exact Hdeleted.
Defined.

Lemma append_query_length (history : list QueryEntry)
    (query_entry : QueryEntry) :
  length (append_query history query_entry) <= 50.
Proof.
  unfold append_query, last_50.
  destruct (Nat.ltb_spec 50 (length (history ++ [query_entry])));
    [rewrite length_drop|]; lia.
Qed.

Lemma length_delete_le {A} (l : list A) (i : nat) :
  length (delete i l) <= length l.
Proof.
  revert i. induction l as [|x l IH]; intros [|i]; simpl; [lia|lia|lia|].
  specialize (IH i). lia.
Qed.

(** X15. A history of at most 50 entries still has at most 50 entries
    after answered questions, deletions and clearing, in any number and
    order. *)
Theorem history_stays_capped (steps : list HistoryStep) (st : SessionState) :
  length (query_history st) <= 50 ->
  length (query_history (fold_left history_step steps st)) <= 50.
Proof.
  revert st. induction steps as [|step steps IH]; intros st Hlen; [done|].
  cbn [fold_left]. apply IH.
  destruct step as [query_entry|idx|]; cbn.
  - apply append_query_length.
  - pose proof (length_delete_le (query_history st)
                  (length (query_history st) - idx)). lia.
  - lia.
Qed.

Lemma history_stays_capped_witness :
  length
    (query_history
       (fold_left history_step
          ((answered <$> (numbered_entry <$> seq 0 60))
           ++ [deleted 3; answered (numbered_entry 60)])
          fresh_session))
  <= 50.
Proof.
  apply (history_stays_capped
           ((answered <$> (numbered_entry <$> seq 0 60))
            ++ [deleted 3; answered (numbered_entry 60)]) fresh_session).
  cbn. lia.
Defined.

(** ** Further properties of the settings and of [run] *)

Lemma list_index_elem_of (x : string) (l : list string) :
  x ∈ l -> exists i, list_index x l = Some i /\ l !! i = Some x.
Proof.
  intros Hin. unfold list_index.
  destruct (list_find_elem_of (fun y => y = x) l x Hin eq_refl)
    as [[i y] Hfind].
  rewrite Hfind. exists i. split; [done|].
  apply list_find_Some in Hfind as (Hy & -> & _). done.
Qed.

Lemma model_page_total (picked : option nat) (cfg : Settings) :
  selected_model cfg ∈ available_models ->
  exists cfg' output,
    render_model_configuration picked cfg = Some (cfg', output)
    /\ selected_model cfg' ∈ available_models
    /\ api_key cfg' = api_key cfg.
Proof.
  intros Havailable.
  destruct (list_index_elem_of _ _ Havailable) as (index & Hindex & Hat).
  unfold render_model_configuration. rewrite Hindex.
  destruct (decide _) as [Hchanged|Hsame]; eexists _, _;
    (split; [done|]); cbn; [|done].
  split; [|done].
  destruct (available_models !! default index picked) as [m|] eqn:Hm;
    [|done].
  by apply list_elem_of_lookup_2 in Hm.
Qed.

(** X16. While the selected model is one of the available models, the
    model page never raises: it keeps the key, selects the model of the
    position the user picked, which is again an available one, and
    configures the models with the key and the new model when the
    selection changed. *)
Theorem model_selection_stays_available (picked : option nat)
    (cfg : Settings) :
  selected_model cfg ∈ available_models ->
  exists cfg' output,
    render_model_configuration picked cfg = Some (cfg', output)
    /\ selected_model cfg' ∈ available_models
    /\ api_key cfg' = api_key cfg
    /\ (forall i model,
          picked = Some i -> available_models !! i = Some model ->
          selected_model cfg' = model)
    /\ (selected_model cfg' <> selected_model cfg ->
        settings_configured (api_key cfg) (selected_model cfg') ∈ output
        /\ reran output = true)
    /\ (selected_model cfg' = selected_model cfg -> cfg' = cfg).
Proof.
  intros Havailable.
  destruct (list_index_elem_of _ _ Havailable) as (index & Hindex & Hat).
  unfold render_model_configuration. rewrite Hindex.
  set (selected := default (selected_model cfg)
                     (available_models !! default index picked)).
  assert (Hselected : selected ∈ available_models).
  { subst selected.
    destruct (available_models !! default index picked) as [m|] eqn:Hm;
      [|done].
    by apply list_elem_of_lookup_2 in Hm. }
  assert (Hpicked : forall i model,
             picked = Some i -> available_models !! i = Some model ->
             selected = model).
  { intros i model -> Hmodel. subst selected. cbn. by rewrite Hmodel. }
  destruct (decide (selected <> selected_model cfg)) as [Hchanged|Hsame].
  - eexists _, _. split; [done|]. cbn.
    split_and!; [done|done|done| |done].
    intros _. split; [|done].
    apply elem_of_cons. right. apply elem_of_cons. by left.
  - exists cfg, [shown (st_subheader "Model Selection")].
    split; [done|].
    assert (selected = selected_model cfg) as Heq
      by (destruct (decide (selected = selected_model cfg)); [done|];
          by destruct Hsame).
    split_and!; [done|done| |done|done].
    intros i model Hi Hmodel. rewrite <- Heq. by eapply Hpicked.
Qed.

Lemma model_selection_stays_available_witness :
  exists cfg' output,
    render_model_configuration (Some 2) initial_settings
    = Some (cfg', output)
    /\ selected_model cfg' ∈ available_models.
Proof.
  destruct (model_selection_stays_available (Some 2) initial_settings)
    as (cfg' & output & Hrender & Havailable & _).
  - apply elem_of_cons. by left.
  - by exists cfg', output.
Defined.

Section RunFacts.

Variable pdf_pages : list byte -> Exception + list (option string).
Variable query_engine : list Document -> string -> Response.

(** X17. Without a key, and with the empty key as well, [run] shows the
    title and at most the key form: it never raises, leaves the registry,
    the history and the index as they are, and shows or performs nothing
    of the document pages. *)
Theorem run_without_key_shows_no_tab (now : string) (input : UserInput)
    (load_error : option Exception) (cfg : Settings) (app : App) :
  no_key cfg = true ->
  exists cfg' output,
    DocumentQueryApp_run pdf_pages query_engine now input load_error cfg app
    = finished cfg' app output
    /\ selected_model cfg' = selected_model cfg
    /\ Forall (fun o => forall e, o = shown e -> e = st_rerun) output.
Proof.
  intros Hno. unfold DocumentQueryApp_run. rewrite Hno.
  unfold render_api_key_section, no_key in *.
  destruct (api_key cfg) as [key|] eqn:Hkey.
  - apply bool_decide_eq_true in Hno. subst key.
    cbn. rewrite Hkey. cbn.
    eexists _, _. split; [done|]. split; [done|].
    repeat (apply Forall_cons; split; [by intros e [=]|]).
    apply Forall_nil_2.
  - destruct input; cbn; try rewrite Hkey; cbn;
      eexists _, _; (split; [done|]); (split; [done|]);
      repeat (apply Forall_cons; split;
              [first [by intros e [=] | by intros e [= <-]]|]);
      apply Forall_nil_2.
Qed.

(** X18. Pressing the key button with an empty input field locks the
    page: the key is then the empty string, and from then on every run,
    whatever the user does, shows only the title, configures the models
    with the empty key and changes nothing; the key form never comes
    back. *)
Theorem empty_key_locks_the_page (now : string)
    (load_error : option Exception) (cfg : Settings) (app : App) :
  api_key cfg = None ->
  let cfg1 :=
    outcome_settings
      (DocumentQueryApp_run pdf_pages query_engine now
         (enter_key EmptyString) load_error cfg app) in
  api_key cfg1 = Some EmptyString
  /\ forall now' input load_error',
       DocumentQueryApp_run pdf_pages query_engine now' input load_error'
         cfg1 app
       = finished cfg1 app
           [st_title title;
            settings_configured (Some EmptyString) (selected_model cfg)].
Proof.
  intros Hkey cfg1.
  assert (Hcfg1 : cfg1 = {| api_key := Some EmptyString;
                            selected_model := selected_model cfg |}).
  { subst cfg1. unfold DocumentQueryApp_run, no_key, render_api_key_section.
    rewrite Hkey. done. }
  rewrite Hcfg1. split; [done|].
  intros now' input load_error'. done.
Qed.

End RunFacts.

Lemma run_without_key_shows_no_tab_witness :
  exists cfg' output,
    DocumentQueryApp_run reject_pdf silent_engine "2024-01-01 00:00:00"
      (manage remove_all_button) None initial_settings two_documents
    = finished cfg' two_documents output.
Proof.
  destruct (run_without_key_shows_no_tab reject_pdf silent_engine
              "2024-01-01 00:00:00"
              (manage remove_all_button) None initial_settings two_documents)
    as (cfg' & output & Hrun & _).
  - reflexivity.
  - by exists cfg', output.
Defined.

Lemma empty_key_locks_the_page_witness :
  DocumentQueryApp_run reject_pdf silent_engine "2024-01-01 00:00:01"
    (enter_key "sk-0123456789") None
    {| api_key := Some EmptyString; selected_model := "gpt-4o-mini" |}
    empty_app
  = finished
      {| api_key := Some EmptyString; selected_model := "gpt-4o-mini" |}
      empty_app
      [st_title title;
       settings_configured (Some EmptyString) "gpt-4o-mini"].
Proof.
  destruct (empty_key_locks_the_page reject_pdf silent_engine
              "2024-01-01 00:00:00" None initial_settings empty_app)
    as [_ Hlocked].
  - reflexivity.
  - apply (Hlocked "2024-01-01 00:00:01" (enter_key "sk-0123456789") None).
Defined.

Lemma model_page_unpicked (cfg : Settings) :
  selected_model cfg ∈ available_models ->
  render_model_configuration None cfg
  = Some (cfg, [shown (st_subheader "Model Selection")]).
Proof.
  intros Havailable.
  destruct (list_index_elem_of _ _ Havailable) as (index & Hindex & Hat).
  unfold render_model_configuration. rewrite Hindex. cbn [default].
  rewrite Hat. cbn [default]. rewrite decide_False; [done|].
  intros H. by apply H.
Qed.

Lemma show_history_idle (len : nat) (rows : list (nat * QueryEntry))
    (st : SessionState) :
  fst (fst (show_history len rows None st)) = st
  /\ snd (show_history len rows None st) = false.
Proof.
  induction rows as [|[i entry] rows [IHst IHrerun]]; [done|].
  cbn [show_history]. rewrite decide_False by done.
  by destruct (show_history len rows None st) as [[st' effects] rerun].
Qed.

Lemma render_history_section_idle (st : SessionState) :
  fst (render_history_section no_history_action st) = st.
Proof.
  destruct (decide (query_history st = [])) as [Hempty|Hrows].
  - unfold render_history_section. by rewrite Hempty.
  - rewrite render_history_section_rows by done. cbv zeta.
    destruct (show_history_idle (length (query_history st))
                (ranked (query_history st)) st) as [Hst Hrerun].
    destruct (show_history (length (query_history st))
                (ranked (query_history st)) None st)
      as [[st' effects] rerun].
    cbn in Hst, Hrerun. by subst.
Qed.

Lemma render_question_section_idle
    (query_engine : list Document -> string -> Response)
    (now : string) (app : App) :
  fst (render_question_section query_engine now None app) = app.
Proof.
  unfold render_question_section.
  by destruct (decide (documents_registry (session app) = ∅)).
Qed.

Lemma render_document_management_idle
    (pdf_pages : list byte -> Exception + list (option string))
    (app : App) :
  fst (render_document_management pdf_pages no_action app) = app
  /\ ends_with_rerun (snd (render_document_management pdf_pages no_action app))
     = false.
Proof.
  unfold render_document_management, show_documents. cbn.
  by destruct (decide (documents_registry (session app) = ∅)).
Qed.

Section Tabs.

Variable pdf_pages : list byte -> Exception + list (option string).
Variable query_engine : list Document -> string -> Response.

Lemma render_tabs_spec (now : string) (input : UserInput) (cfg : Settings)
    (app : App) (output : list Output) :
  selected_model cfg ∈ available_models ->
  exists cfg' output',
    render_tabs pdf_pages query_engine now input None cfg app output
    = finished cfg' (state_after pdf_pages query_engine now input app) output'
    /\ selected_model cfg' ∈ available_models
    /\ api_key cfg' = api_key cfg
    /\ ((forall i, input <> pick_model i) -> cfg' = cfg).
Proof.
  intros Havailable. unfold render_tabs, state_after.
  pose proof (render_question_section_idle query_engine now app) as Hq.
  pose proof (render_history_section_idle (session app)) as Hh.
  pose proof (model_page_unpicked cfg Havailable) as Hm.
  destruct input as [text|prompt|action|i|action|].
  - destruct (render_question_section query_engine now None app)
      as [app1 tab1]; cbn in Hq; subst app1.
    destruct (render_document_management_idle pdf_pages app) as [Hd Hr].
    destruct (render_document_management pdf_pages no_action app)
      as [app2 tab2]; cbn in Hd, Hr; subst app2. rewrite Hr, Hm. cbn.
    destruct (render_history_section no_history_action (session app))
      as [st tab4]; cbn in Hh; subst st.
    eexists _, _. split; [by destruct app|done].
  - destruct (render_question_section query_engine now (Some prompt) app)
      as [app1 tab1]. cbn [fst].
    destruct (render_document_management_idle pdf_pages app1) as [Hd Hr].
    destruct (render_document_management pdf_pages no_action app1)
      as [app2 tab2]; cbn in Hd, Hr; subst app2. rewrite Hr, Hm. cbn.
    pose proof (render_history_section_idle (session app1)) as Hh1.
    destruct (render_history_section no_history_action (session app1))
      as [st tab4]; cbn in Hh1; subst st.
    eexists _, _. split; [by destruct app1|done].
  - destruct (render_question_section query_engine now None app)
      as [app1 tab1]; cbn in Hq; subst app1.
    destruct (render_document_management pdf_pages action app)
      as [app2 tab2]. cbn [fst].
    destruct (ends_with_rerun tab2); [by eexists _, _|].
    rewrite Hm. cbn.
    pose proof (render_history_section_idle (session app2)) as Hh2.
    destruct (render_history_section no_history_action (session app2))
      as [st tab4]; cbn in Hh2; subst st.
    eexists _, _. split; [by destruct app2|done].
  - destruct (render_question_section query_engine now None app)
      as [app1 tab1]; cbn in Hq; subst app1.
    destruct (render_document_management_idle pdf_pages app) as [Hd Hr].
    destruct (render_document_management pdf_pages no_action app)
      as [app2 tab2]; cbn in Hd, Hr; subst app2. rewrite Hr.
    destruct (model_page_total (Some i) cfg Havailable)
      as (cfg' & tab3 & -> & Hav' & Hkey').
    destruct (render_history_section no_history_action (session app))
      as [st tab4]; cbn in Hh; subst st.
    destruct (reran tab3).
    + eexists _, _. split; [done|]. split_and!; [done|done|].
      intros Hne. by destruct (Hne i).
    + eexists _, _. split; [by destruct app|]. split_and!; [done|done|].
      intros Hne. by destruct (Hne i).
  - destruct (render_question_section query_engine now None app)
      as [app1 tab1]; cbn in Hq; subst app1.
    destruct (render_document_management_idle pdf_pages app) as [Hd Hr].
    destruct (render_document_management pdf_pages no_action app)
      as [app2 tab2]; cbn in Hd, Hr; subst app2. rewrite Hr, Hm. cbn.
    destruct (render_history_section action (session app)) as [st tab4].
    by eexists _, _.
  - destruct (render_question_section query_engine now None app)
      as [app1 tab1]; cbn in Hq; subst app1.
    destruct (render_document_management_idle pdf_pages app) as [Hd Hr].
    destruct (render_document_management pdf_pages no_action app)
      as [app2 tab2]; cbn in Hd, Hr; subst app2. rewrite Hr, Hm. cbn.
    destruct (render_history_section no_history_action (session app))
      as [st tab4]; cbn in Hh; subst st.
    eexists _, _. split; [by destruct app|done].
Qed.

(** X19. With a key that is not empty and an available model, a run of
    the script does what the tab of the user's input does and nothing
    else: a question goes through the question section, an action of the
    documents page through that page, a history button through the
    history page, and the model, which stays an available one, changes
    only on the model page; the key is kept.  [run] raises exactly when
    the index cannot be loaded, before anything but the title is shown
    and with nothing changed. *)
Theorem run_performs_the_input (now : string) (input : UserInput)
    (cfg : Settings) (app : App) :
  no_key cfg = false ->
  selected_model cfg ∈ available_models ->
  (exists cfg' output,
     DocumentQueryApp_run pdf_pages query_engine now input None cfg app
     = finished cfg' (state_after pdf_pages query_engine now input app) output
     /\ selected_model cfg' ∈ available_models
     /\ api_key cfg' = api_key cfg
     /\ ((forall i, input <> pick_model i) -> cfg' = cfg))
  /\ forall e,
       DocumentQueryApp_run pdf_pages query_engine now input (Some e) cfg app
       = raised e cfg app [st_title title].
Proof.
  intros Hkey Havailable. unfold DocumentQueryApp_run. rewrite Hkey.
  split; [by apply render_tabs_spec|done].
Qed.

End Tabs.

Lemma run_performs_the_input_witness :
  exists cfg' output,
    DocumentQueryApp_run reject_pdf silent_engine "2024-01-02 00:00:00"
      (manage (remove_selected "a.txt")) None
      {| api_key := Some "sk-0123456789"; selected_model := "gpt-4o" |}
      two_documents
    = finished cfg'
        (fst (remove_document two_documents "a.txt")) output.
Proof.
  destruct (run_performs_the_input reject_pdf silent_engine
              "2024-01-02 00:00:00" (manage (remove_selected "a.txt"))
              {| api_key := Some "sk-0123456789"; selected_model := "gpt-4o" |}
              two_documents)
    as [(cfg' & output & Hrun & _) _].
  - reflexivity.
  - apply elem_of_cons. right. apply elem_of_cons. by left.
  - exists cfg', output. exact Hrun.
Defined.

(** ** Further properties: start-up, PDF text, round trips *)

(** X20. The two loads of [__init__] do not disturb each other and never
    fail: the registry comes out as the registry file alone decides (the
    loaded value, the empty registry after a failed load, the session's
    own registry without a file), and so does the history from the
    history file; what the session held is dropped for a file that loads;
    the errors of both loads are shown, the registry's first. *)
Theorem init_loads_independently (session_state : option SessionState)
    (meta_file : FileRead (gmap string DocInfo))
    (history_file : FileRead (list QueryEntry)) :
  let st0 := _initialize_session_state session_state in
  let '(st, effects) :=
    DocumentQueryApp_init session_state meta_file history_file in
  documents_registry st
  = match meta_file with
    | no_file => documents_registry st0
    | load_raises _ => ∅
    | loaded v => v
    end
  /\ query_history st
     = match history_file with
       | no_file => query_history st0
       | load_raises _ => []
       | loaded loaded_history => loaded_history
       end
  /\ effects
     = match meta_file with
       | load_raises e => [st_error "Error loading document registry: " e]
       | _ => []
       end
       ++ match history_file with
          | load_raises e => [st_error "Error loading query history: " e]
          | _ => []
          end.
Proof.
  unfold DocumentQueryApp_init.
  by destruct meta_file, history_file.
Qed.

Lemma concat_pages (pages : list (option string)) (text : string) :
  fold_left (fun text page => text +:+ default EmptyString page) pages text
  = text +:+ String.concat EmptyString (default EmptyString <$> pages).
Proof.
  revert text. induction pages as [|page pages IH]; intros text.
  - cbn. by rewrite string_app_empty.
  - cbn [fold_left fmap list_fmap]. rewrite IH.
    destruct pages as [|page' pages].
    + cbn. by rewrite !string_app_empty.
    + change (String.concat EmptyString
                (default EmptyString page
                 :: (default EmptyString <$> page' :: pages)))
        with (default EmptyString page +:+ EmptyString
              +:+ String.concat EmptyString
                    (default EmptyString <$> page' :: pages)).
      change (EmptyString +:+ ?s) with s.
      by rewrite string_app_assoc.
Qed.

(** X21. The text of a PDF is the texts of its pages put together in
    their order, where a page without text adds nothing, and nothing is
    shown; when the reader raises, there is no text and the error is
    shown. *)
Theorem extract_pdf_text_joins_pages
    (pdf_pages : list byte -> Exception + list (option string))
    (pdf_file : list byte) :
  _extract_pdf_text pdf_pages pdf_file
  = match pdf_pages pdf_file with
    | inr pages =>
      (Some (String.concat EmptyString (default EmptyString <$> pages)), [])
    | inl e => (None, [st_error "Error extracting PDF text: " e])
    end.
Proof.
  unfold _extract_pdf_text.
  destruct (pdf_pages pdf_file) as [e|pages]; [done|].
  by rewrite concat_pages.
Qed.

(** X22. Removing a name twice is the same as removing it once, whether
    the name was registered or not. *)
Theorem remove_document_twice (app : App) (filename : string) :
  fst (remove_document (fst (remove_document app filename)) filename)
  = fst (remove_document app filename).
Proof.
  apply app_eq.
  - rewrite !remove_document_registry. apply delete_delete_eq.
  - by rewrite !remove_document_history.
  - rewrite !remove_document_index, list_filter_filter.
    apply list_filter_iff. intros doc. tauto.
Qed.

(** X23. Upload and removal undo each other: a file with a text, whose
    hash and name are not registered and whose name tags no indexed
    document, is indexed and registered by the upload, and removing its
    name afterwards gives back the registry, the history and the index
    from before the upload. *)
Theorem upload_then_remove
    (pdf_pages : list byte -> Exception + list (option string))
    (now : string) (u : UploadedFile) (doc : Document) (app : App) :
  is_duplicate (documents_registry (session app))
    (_generate_file_hash (getvalue u)) = false ->
  indexed_document pdf_pages u = Some doc ->
  documents_registry (session app) !! file_name u = None ->
  Forall (fun old => tag old <> Some (file_name u)) (index app) ->
  let app' := fst (upload_documents pdf_pages now [u] app) in
  documents_registry (session app') !! file_name u = Some (record_of now u)
  /\ index app' = index app ++ [doc]
  /\ fst (remove_document app' (file_name u)) = app.
Proof.
  intros Hnew Hdoc Hname Htags app'.
  assert (Happ' : app' = accept pdf_pages now app u).
  { subst app'. rewrite upload_documents_new_files. unfold new_files.
    by rewrite filter_cons, decide_True, filter_nil by exact Hnew. }
  rewrite Happ', (accept_indexed _ _ _ _ _ Hdoc).
  split_and!.
  - apply lookup_insert_eq.
  - done.
  - apply app_eq.
    + rewrite remove_document_registry. cbn.
      rewrite delete_insert_eq. by apply delete_id.
    + by rewrite remove_document_history.
    + rewrite remove_document_index. cbn. rewrite filter_app.
      rewrite (filter_all_kept _ _ Htags).
      rewrite filter_cons, decide_False, filter_nil, app_nil_r; [done|].
      intros Hne. apply Hne.
      unfold indexed_document in Hdoc.
      destruct (extracted_text pdf_pages u) as [t|]; [|done].
      destruct (decide (t = EmptyString)); [done|].
      injection Hdoc as <-. unfold tag. cbn. apply lookup_singleton_eq.
Qed.

Lemma upload_then_remove_witness :
  fst (remove_document
         (fst (upload_documents reject_pdf "2024-01-02 00:00:00"
                 [text_file "c.txt" "gamma"] two_documents))
         "c.txt")
  = two_documents.
Proof.
  apply (upload_then_remove reject_pdf "2024-01-02 00:00:00"
           (text_file "c.txt" "gamma")
           {| text := "gamma"; metadata := {[ "filename" := "c.txt" ]} |}
           two_documents).
  - vm_compute. reflexivity.
  - vm_compute. reflexivity.
  - vm_compute. reflexivity.
  - repeat (apply Forall_cons; split; [vm_compute; discriminate|]).
    apply Forall_nil_2.
Defined.

(** X24. Content that was accepted is refused from then on: after a file
    with a text and an unregistered hash was uploaded, a second upload of
    the same bytes, under any name and type, is listed as a duplicate and
    changes nothing. *)
Theorem accepted_content_is_refused_next
    (pdf_pages : list byte -> Exception + list (option string))
    (now now' : string) (u again : UploadedFile) (doc : Document)
    (app : App) :
  is_duplicate (documents_registry (session app))
    (_generate_file_hash (getvalue u)) = false ->
  indexed_document pdf_pages u = Some doc ->
  getvalue again = getvalue u ->
  let app' := fst (upload_documents pdf_pages now [u] app) in
  upload_documents pdf_pages now' [again] app'
  = (app',
     [st_warning "Duplicate files detected:";
      st_write ("- " +:+ file_name again)]
     ++ _save_document_registry (session app')
     ++ [index_persist PERSIST_DIR (index app');
         st_success "Index updated successfully!"; st_rerun]).
Proof.
  intros Hnew Hdoc Hsame app'.
  assert (Happ' : app' = accept pdf_pages now app u).
  { subst app'. rewrite upload_documents_new_files. unfold new_files.
    by rewrite filter_cons, decide_True, filter_nil by exact Hnew. }
  assert (Hdup : is_duplicate (documents_registry (session app'))
                   (file_hash_of again) = true).
  { apply is_duplicate_true. exists (file_name u), (record_of now u).
    rewrite Happ', (accept_indexed _ _ _ _ _ Hdoc). cbn.
    split; [apply lookup_insert_eq|].
    unfold file_hash_of. by rewrite Hsame. }
  rewrite upload_documents_spec by done.
  rewrite filter_cons, decide_False, filter_cons, decide_True, !filter_nil;
    [done|exact Hdup|rewrite Hdup; done].
Qed.

Lemma accepted_content_is_refused_next_witness :
  fst (upload_documents reject_pdf "2024-01-03 00:00:00"
         [text_file "copy.txt" "gamma"]
         (fst (upload_documents reject_pdf "2024-01-02 00:00:00"
                 [text_file "c.txt" "gamma"] two_documents)))
  = fst (upload_documents reject_pdf "2024-01-02 00:00:00"
           [text_file "c.txt" "gamma"] two_documents).
Proof.
  rewrite (accepted_content_is_refused_next reject_pdf
             "2024-01-02 00:00:00" "2024-01-03 00:00:00"
             (text_file "c.txt" "gamma") (text_file "copy.txt" "gamma")
             {| text := "gamma"; metadata := {[ "filename" := "c.txt" ]} |}
             two_documents).
  - reflexivity.
  - vm_compute. reflexivity.
  - vm_compute. reflexivity.
  - reflexivity.
Defined.
